(** * Thorsten-Voice helper scripts: a shallow embedding and its properties

    Two scripts of the repository are embedded here:

    - [helperScripts/LJSpeech2HF-Parquet.py]: reads an LJSpeech-style
      [metadata.csv], keeps the rows whose audio file exists, builds a
      dataset of three columns and pushes it to a dataset hub;
    - [Youtube/TextCleaning-for-betterTTS/cleaning.py]: reads standard
      input and writes the normalisation of a text to standard output.

    Python values are modelled as follows.  A [str] is the list of its
    Unicode code points, a [dict] with string keys is a [gmap], an [int] is
    a [Z].  Code that prints, raises, or talks to the file system and the
    network runs in a state monad whose outcomes are a normal value, a
    raised exception, or the [continue] signal of a [for] loop. *)

From Stdlib Require Import ZArith NArith List String Ascii DecimalString.
From stdpp Require Import base gmap strings list.

Open Scope Z_scope.

(** ** Python primitives *)

Module Py.

(** A Python [str]: the sequence of its code points. *)
Abbreviation str := (list N).

(** A literal of the source text (the literals used are all ASCII). *)
Definition lit (s : string) : str :=
  (fun a => N_of_ascii a) <$> list_ascii_of_string s.

(** [str.isspace] on one code point: the code points CPython's
    [_PyUnicode_IsWhitespace] accepts. *)
Definition isspace (c : N) : bool :=
  ((9 <=? c) && (c <=? 13) || (28 <=? c) && (c <=? 32)
   || (c =? 133) || (c =? 160) || (c =? 5760)
   || (8192 <=? c) && (c <=? 8202)
   || (c =? 8232) || (c =? 8233) || (c =? 8239) || (c =? 8287)
   || (c =? 12288))%N.

Fixpoint lstrip (s : str) : str :=
  match s with
  | [] => []
  | c :: s' => if isspace c then lstrip s' else s
  end.

Definition rstrip (s : str) : str := rev (lstrip (rev s)).

(** [s.strip()]: leading, then trailing white space removed. *)
Definition strip (s : str) : str := rstrip (lstrip s).

(** [s.split(sep)] for a separator of one code point. *)
Fixpoint split (sep : N) (s : str) : list str :=
  match s with
  | [] => [[]]
  | c :: s' =>
      if (c =? sep)%N then [] :: split sep s'
      else match split sep s' with
           | f :: fs => (c :: f) :: fs
           | [] => [[c]]
           end
  end.

(** Truth value of a [str] or a [list]: non-empty. *)
Definition truthy {A} (l : list A) : bool :=
  match l with [] => false | _ => true end.

(** [str(i)] for an [int], as an f-string renders it. *)
Definition str_of_int (i : Z) : str := lit (NilZero.string_of_int (Z.to_int i)).

(** *** [posixpath.join] *)

Definition slash : N := 47%N.

Definition startswith_sep (s : str) : bool :=
  match s with c :: _ => (c =? slash)%N | [] => false end.

Definition endswith_sep (s : str) : bool := startswith_sep (rev s).

(** One round of the loop of [posixpath.join(a, *p)]. *)
Definition join_step (path b : str) : str :=
  if startswith_sep b then b
  else if negb (truthy path) || endswith_sep path then path ++ b
  else path ++ slash :: b.

Definition os_path_join (a : str) (p : list str) : str := foldl join_step a p.

(** *** Exceptions and outcomes *)

Inductive exn : Type :=
| FileNotFoundError (msg : str)
| RuntimeError (msg : str)
| IndexError
| KeyError (key : string)
| NameError (name : string)
| HfHubHTTPError (status : Z)
| NormalizerError.

Definition is_IndexError (e : exn) : bool :=
  match e with IndexError => true | _ => false end.

(** What running a statement gives: a value, a raised exception, or the
    [continue] of the enclosing [for] loop. *)
Inductive outcome (A : Type) : Type :=
| Normal (a : A)
| Raise (e : exn)
| Continue.
Arguments Normal {A} a.
Arguments Raise {A} e.
Arguments Continue {A}.

(** Statements over a world [W]. *)
Definition M (W A : Type) : Type := W -> W * outcome A.

Definition ret {W A} (a : A) : M W A := fun w => (w, Normal a).

Definition bind {W A B} (m : M W A) (k : A -> M W B) : M W B :=
  fun w =>
    match m w with
    | (w', Normal a) => k a w'
    | (w', Raise e) => (w', Raise e)
    | (w', Continue) => (w', Continue)
    end.

Definition raise {W A} (e : exn) : M W A := fun w => (w, Raise e).

Definition continue {W A} : M W A := fun w => (w, Continue).

(** [try: m  except <exc>: h], for the exceptions [catches] accepts. *)
Definition try_except {W A} (m : M W A) (catches : exn -> bool) (h : M W A)
  : M W A :=
  fun w =>
    match m w with
    | (w', Raise e) => if catches e then h w' else (w', Raise e)
    | r => r
    end.

(** [for x in xs: body], threading the variables [s] the body assigns.
    A body that ends in [continue] leaves them as they were. *)
Fixpoint for_each {W A S} (xs : list A) (body : A -> S -> M W S) (s : S)
  : M W S :=
  match xs with
  | [] => ret s
  | x :: xs' =>
      fun w =>
        match body x s w with
        | (w', Normal s') => for_each xs' body s' w'
        | (w', Continue) => for_each xs' body s w'
        | (w', Raise e) => (w', Raise e)
        end
  end.

Declare Scope py_scope.
Delimit Scope py_scope with py.
Notation "x <- m ;; k" := (bind m (fun x => k))
  (at level 100, m at next level, right associativity) : py_scope.
Notation "m ;;; k" := (bind m (fun _ => k))
  (at level 100, right associativity) : py_scope.

(** [l[i]] on a list: negative indices count from the end, an index out
    of range raises [IndexError]. *)
Definition getitem {W A} (l : list A) (i : Z) : M W A :=
  let n := Z.of_nat (length l) in
  let j := if i <? 0 then i + n else i in
  if (j <? 0) || (n <=? j) then raise IndexError
  else match l !! Z.to_nat j with
       | Some x => ret x
       | None => raise IndexError
       end.

(** [d[k]] on a dict: an absent key raises [KeyError]. *)
Definition dict_getitem {W} (d : gmap string str) (k : string) : M W str :=
  match d !! k with
  | Some v => ret v
  | None => raise (KeyError k)
  end.

End Py.

(** ** The dataset library and the hub, as the script uses them *)

Module Hf.
Import Py.

(** A row of a table, a record of the metadata: a dict from column names
    to strings. *)
Abbreviation dict := (gmap string str).

(** Column types of [datasets.Features]. *)
Inductive feature : Type :=
| Value (dtype : str)
| Audio (sampling_rate : Z).

(** Modelled from the spec: the [datasets.Dataset] type is not part of the
    repository.  Following the data model of the spec, a Dataset is an
    ordered sequence of rows under a schema of named columns; the audio
    column holds a path, and its declared sampling rate sits in the
    schema. *)
Record Dataset : Type := mkDataset {
  ds_features : list (string * feature);
  ds_rows : list dict
}.

(** [Dataset.from_list(rows, features=features)] *)
Definition Dataset_from_list (rows : list dict)
    (features : list (string * feature)) : Dataset :=
  mkDataset features rows.

(** A repository of the hub. *)
Record repo : Type := mkRepo {
  repo_private : bool;
  repo_content : option Dataset
}.

(** Modelled from the spec: the remote registry behind
    [huggingface_hub.HfApi] is not part of the repository.  It is a map
    from (repository type, repository id) to repositories, with the
    tokens it accepts. *)
Record Hub : Type := mkHub {
  hub_repos : gmap (str * str) repo;
  hub_tokens : list str
}.

(** The calls that reach the network, with their arguments. *)
Inductive net_call : Type :=
| CallCreateRepo (repo_id repo_type : str) (private exist_ok : bool)
                 (token : str)
| CallPushToHub (ds : Dataset) (repo_id token : str).

(** What [print] writes: a line of text, or the rendering of a Dataset. *)
Inductive out : Type :=
| OutStr (s : str)
| OutDataset (ds : Dataset).

(** The world of the script: its standard output, the hub, and the
    network calls made so far. *)
Record world : Type := mkWorld {
  stdout : list out;
  hub : Hub;
  net_calls : list net_call
}.

Definition print (s : str) : M world unit :=
  fun w => (mkWorld (stdout w ++ [OutStr s]) (hub w) (net_calls w), Normal tt).

(** The world after some more output. *)
Definition emit (w : world) (o : list out) : world :=
  mkWorld (stdout w ++ o) (hub w) (net_calls w).

Definition print_dataset (ds : Dataset) : M world unit :=
  fun w =>
    (mkWorld (stdout w ++ [OutDataset ds]) (hub w) (net_calls w), Normal tt).

Definition token_ok (h : Hub) (token : str) : bool :=
  bool_decide (token ∈ hub_tokens h).

(** Modelled from the spec: [HfApi.create_repo] is not part of the
    repository.  A token the hub refuses is an authorisation failure; an
    existing repository makes the call succeed as a no-op under
    [exist_ok], and fail with a conflict otherwise; an absent one is
    created empty. *)
Definition create_repo (repo_id repo_type : str) (private exist_ok : bool)
    (token : str) : M world unit :=
  fun w =>
    let calls :=
      net_calls w ++ [CallCreateRepo repo_id repo_type private exist_ok token] in
    let h := hub w in
    if negb (token_ok h token) then
      (mkWorld (stdout w) h calls, Raise (HfHubHTTPError 401))
    else
      match hub_repos h !! (repo_type, repo_id) with
      | Some _ =>
          if exist_ok then (mkWorld (stdout w) h calls, Normal tt)
          else (mkWorld (stdout w) h calls, Raise (HfHubHTTPError 409))
      | None =>
          let h' :=
            mkHub (<[(repo_type, repo_id) := mkRepo private None]> (hub_repos h))
                  (hub_tokens h) in
          (mkWorld (stdout w) h' calls, Normal tt)
      end.

(** Modelled from the spec: [Dataset.push_to_hub] is not part of the
    repository.  The upload stores the Dataset under the dataset
    repository [repo_id], all or nothing. *)
Definition push_to_hub (ds : Dataset) (repo_id token : str) : M world unit :=
  fun w =>
    let calls := net_calls w ++ [CallPushToHub ds repo_id token] in
    let h := hub w in
    if negb (token_ok h token) then
      (mkWorld (stdout w) h calls, Raise (HfHubHTTPError 401))
    else
      let key := (lit "dataset", repo_id) in
      let private :=
        match hub_repos h !! key with
        | Some r => repo_private r
        | None => false
        end in
      let h' :=
        mkHub (<[key := mkRepo private (Some ds)]> (hub_repos h))
              (hub_tokens h) in
      (mkWorld (stdout w) h' calls, Normal tt).

(** The file system, as far as the script looks at it: which paths are
    regular files, and the lines a text file yields when iterated. *)
Record filesystem : Type := mkFs {
  isfile : str -> bool;
  file_lines : str -> list str
}.

End Hf.

(** ** helperScripts/LJSpeech2HF-Parquet.py *)

Module LJSpeech2HF.
Import Py Hf.
Local Open Scope py_scope.

(** The column separator of the metadata file, ["|"]. *)
Definition bar : N := 124%N.

Definition when {W} (b : bool) (m : M W unit) : M W unit :=
  if b then m else ret tt.

Section load.

Variable fs : filesystem.
Variables root_dir metadata_filename wav_subdir audio_ext : str.
Variable text_column_index : Z.

(** The [try] block that picks the text column of a non-blank line. *)
Definition select_text (parts : list str) (line : str) : M world str :=
  try_except
    (p <- getitem parts text_column_index ;; ret (strip p))
    is_IndexError
    (print (lit "[WARN] text_column_index "
            ++ str_of_int text_column_index
            ++ lit " invalid for line: " ++ line) ;;;
     continue).

(** The body of the loop over the lines of the metadata file; [data] is
    the list built so far. *)
Definition load_line (line : str) (data : list dict) : M world (list dict) :=
  let line := strip line in
  when (negb (truthy line)) continue ;;;
  let parts := split bar line in
  when (length parts <? 2)%nat
    (print (lit "[WARN] malformed metadata line (too few columns): " ++ line) ;;;
     continue) ;;;
  utt_id <- (p <- getitem parts 0 ;; ret (strip p)) ;;
  text <- select_text parts line ;;
  let wav_rel := os_path_join wav_subdir [utt_id ++ audio_ext] in
  let wav_path := os_path_join root_dir [wav_rel] in
  when (negb (isfile fs wav_path))
    (print (lit "[WARN] audio file not found, skipping: " ++ wav_path) ;;;
     continue) ;;;
  ret (data ++ [ <["id" := utt_id]> (<["text" := text]>
                   (<["audio_path" := wav_path]> ∅)) ]).

(** The loop over the lines, from an empty [data]. *)
Definition load_lines (lines : list str) : M world (list dict) :=
  for_each lines load_line [].

Definition load_ljs_metadata : M world (list dict) :=
  let meta_path := os_path_join root_dir [metadata_filename] in
  when (negb (isfile fs meta_path))
    (raise (FileNotFoundError (lit "metadata file not found: " ++ meta_path))) ;;;
  data <- load_lines (file_lines fs meta_path) ;;
  when (negb (truthy data))
    (raise (RuntimeError (lit "No valid rows found in metadata file."))) ;;;
  ret data.

(** *** The reading of a line in the words of the specification

    The specification describes a line by its delimiter-separated fields:
    the id is the first field trimmed, the text is the field the column
    index resolves to, trimmed, and the audio path is
    [join(root, wavSubdir, id + audioExt)].  [judge] follows these words;
    it is compared with [load_line] below. *)

(** A column index against [n] fields: negative indices count from the
    end; [None] when out of range. *)
Definition resolve_index (n : nat) (i : Z) : option nat :=
  if (0 <=? i) && (i <? Z.of_nat n) then Some (Z.to_nat i)
  else if (- Z.of_nat n <=? i) && (i <? 0) then Some (Z.to_nat (Z.of_nat n + i))
  else None.

Definition mk_record (id text audio_path : str) : dict :=
  <["id" := id]> (<["text" := text]> (<["audio_path" := audio_path]> ∅)).

Definition audio_path_of (id : str) : str :=
  os_path_join root_dir [wav_subdir; id ++ audio_ext].

Inductive verdict : Type :=
| Blank
| TooFewColumns
| IndexOutOfRange
| AudioMissing (path : str)
| Accepted (record : dict).

Definition judge (line : str) : verdict :=
  if negb (truthy (strip line)) then Blank
  else
    let fields := split bar line in
    if (length fields <? 2)%nat then TooFewColumns
    else
      match head fields, resolve_index (length fields) text_column_index with
      | Some f0, Some k =>
          match fields !! k with
          | Some ftext =>
              let id := strip f0 in
              if isfile fs (audio_path_of id)
              then Accepted (mk_record id (strip ftext) (audio_path_of id))
              else AudioMissing (audio_path_of id)
          | None => IndexOutOfRange
          end
      | _, _ => IndexOutOfRange
      end.

(** The record a line contributes, if any. *)
Definition line_record (line : str) : option dict :=
  match judge line with
  | Accepted d => Some d
  | _ => None
  end.

(** The diagnostics a line causes. *)
Definition line_diagnostics (line : str) : list out :=
  match judge line with
  | Blank | Accepted _ => []
  | TooFewColumns =>
      [OutStr (lit "[WARN] malformed metadata line (too few columns): "
               ++ strip line)]
  | IndexOutOfRange =>
      [OutStr (lit "[WARN] text_column_index " ++ str_of_int text_column_index
               ++ lit " invalid for line: " ++ strip line)]
  | AudioMissing path =>
      [OutStr (lit "[WARN] audio file not found, skipping: " ++ path)]
  end.

Definition records (lines : list str) : list dict := omap line_record lines.

Definition diagnostics (lines : list str) : list out :=
  concat (line_diagnostics <$> lines).

End load.

(** The body of the loop of [build_hf_audio_dataset]. *)
Definition build_row (ex : dict) (rows : list dict) : M world (list dict) :=
  id <- dict_getitem ex "id" ;;
  text <- dict_getitem ex "text" ;;
  audio <- dict_getitem ex "audio_path" ;;
  ret (rows ++ [ <["id" := id]> (<["text" := text]> (<["audio" := audio]> ∅)) ]).

Definition build_hf_audio_dataset (examples : list dict) (sampling_rate : Z)
  : M world Dataset :=
  let features :=
    [ ("id", Value (lit "string"));
      ("text", Value (lit "string"));
      ("audio", Audio sampling_rate) ] in
  rows <- for_each examples build_row [] ;;
  ret (Dataset_from_list rows features).

(** The row of the Dataset a record stands for, in the words of the
    specification: [id], [text], and the audio path under [audio]; [None]
    when the record lacks one of its three keys. *)
Definition dataset_row (ex : dict) : option dict :=
  match ex !! "id", ex !! "text", ex !! "audio_path" with
  | Some id, Some text, Some audio =>
      Some (<["id" := id]> (<["text" := text]> (<["audio" := audio]> ∅)))
  | _, _, _ => None
  end.

(** The schema [build_hf_audio_dataset] declares. *)
Definition schema (sampling_rate : Z) : list (string * feature) :=
  [ ("id", Value (lit "string"));
    ("text", Value (lit "string"));
    ("audio", Audio sampling_rate) ].

(** [os.getenv] reads the environment, a map from names to values. *)
Definition os_getenv (env : gmap string str) (name : string) : option str :=
  env !! name.

(** The call [api.create_repo(..., exist_ok=True, ...)] of
    [push_dataset_to_hub]. *)
Definition ensure_repo (repo_id : str) (private : bool) (token : str)
  : M world unit :=
  create_repo repo_id (lit "dataset") private true token.

Definition push_dataset_to_hub (env : gmap string str) (ds : Dataset)
    (repo_id : str) (hf_token : option str) (private : bool) : M world unit :=
  let hf_token :=
    match hf_token with
    | None => os_getenv env "HF_TOKEN"
    | Some t => Some t
    end in
  match hf_token with
  | None =>
      raise (RuntimeError
        (lit "No HF token found. Pass --hf-token or set HF_TOKEN env variable."))
  | Some token =>
      ensure_repo repo_id private token ;;;
      push_to_hub ds repo_id token
  end.

(** The parsed command line. *)
Record Args : Type := mkArgs {
  args_root_dir : str;
  args_metadata_filename : str;
  args_wav_subdir : str;
  args_audio_ext : str;
  args_text_column_index : Z;
  args_sampling_rate : Z;
  args_hf_repo : str;
  args_hf_token : option str;
  args_hf_private : bool
}.

Definition main (env : gmap string str) (fs : filesystem) (args : Args)
  : M world unit :=
  print (lit "[INFO] Loading metadata...") ;;;
  examples <- load_ljs_metadata fs (args_root_dir args)
                (args_metadata_filename args) (args_wav_subdir args)
                (args_audio_ext args) (args_text_column_index args) ;;
  print (lit "[INFO] Found " ++ str_of_int (Z.of_nat (length examples))
         ++ lit " valid examples") ;;;
  print (lit "[INFO] Building HF audio dataset...") ;;;
  ds <- build_hf_audio_dataset examples (args_sampling_rate args) ;;
  print_dataset ds ;;;
  print (lit "[INFO] Pushing dataset to hub as " ++ args_hf_repo args
         ++ lit " ...") ;;;
  push_dataset_to_hub env ds (args_hf_repo args) (args_hf_token args)
    (args_hf_private args) ;;;
  print (lit "[INFO] Done. Dataset uploaded.").

End LJSpeech2HF.

(** ** Youtube/TextCleaning-for-betterTTS/cleaning.py *)

Module Cleaning.
Import Py.
Local Open Scope py_scope.

(** A call of the normaliser, with the arguments the script passes. *)
Record normalizer_call : Type := mkCall {
  call_lang : str;
  call_input_case : str;
  call_text : str;
  call_punct_post_process : bool;
  call_verbose : bool
}.

(** The world of the script: what it wrote to standard output, and the
    calls of the normaliser it made. *)
Record world : Type := mkWorld {
  stdout : list str;
  normalizer_calls : list normalizer_call
}.

Section script.

(** The normaliser of [nemo_text_processing], a library outside the
    repository: the text it returns for a call, or [None] when it
    raises. *)
Variable Normalizer_normalize : normalizer_call -> option str.

Definition normalize_text (input_text language : str) : M world str :=
  fun w =>
    let call := mkCall language (lit "cased") input_text true false in
    let w' := mkWorld (stdout w) (normalizer_calls w ++ [call]) in
    match Normalizer_normalize call with
    | Some normalized => (w', Normal normalized)
    | None => (w', Raise NormalizerError)
    end.

Definition sys_stdout_write (s : str) : M world unit :=
  fun w => (mkWorld (stdout w ++ [s]) (normalizer_calls w), Normal tt).

(** Reading a module-level variable that may not have been assigned. *)
Definition read_var (name : string) (v : option str) : M world str :=
  match v with
  | Some x => ret x
  | None => raise (NameError name)
  end.

(** The statements of the module; [stdin] is the sequence of lines that
    iterating [sys.stdin] yields. *)
Definition script (stdin : list str) : M world unit :=
  input_text_stdin <-
    for_each stdin (fun line _ => ret (Some line)) None ;;
  input_text <- read_var "input_text_stdin" input_text_stdin ;;
  output_text <- normalize_text input_text (lit "en") ;;
  sys_stdout_write output_text.

End script.

End Cleaning.

(** ** A small corpus, to run the scripts on *)

Module Examples.
Import Py Hf LJSpeech2HF.

Definition nl : str := [10%N].

(** The directory [corpus] holds five metadata files and three audio
    files, one of them named by the bare extension. *)
Definition corpus_fs : filesystem :=
  mkFs
    (fun p =>
       bool_decide
         (p ∈ [ lit "corpus/metadata.csv"; lit "corpus/blank.csv";
                lit "corpus/broken.csv"; lit "corpus/empty_id.csv";
                lit "corpus/trailing.csv";
                lit "corpus/wavs/LJ001-0001.wav"; lit "corpus/wavs/a.wav";
                lit "corpus/wavs/.wav" ]))
    (fun p =>
       if bool_decide (p = lit "corpus/metadata.csv") then
         [ lit "LJ001-0001|Mary had a little lamb.|MARY HAD A LITTLE LAMB." ++ nl;
           nl;
           lit "onlyonefield" ++ nl;
           lit "LJ002-0001|broken" ++ nl;
           lit "  a | second " ++ nl ]
       else if bool_decide (p = lit "corpus/blank.csv") then
         [ nl ]
       else if bool_decide (p = lit "corpus/broken.csv") then
         [ lit "onlyonefield" ++ nl; lit "LJ002-0001|broken" ++ nl ]
       else if bool_decide (p = lit "corpus/empty_id.csv") then
         [ lit "|x" ++ nl ]
       else if bool_decide (p = lit "corpus/trailing.csv") then
         [ lit "a|" ++ nl ]
       else []).

(** A hub without repositories that accepts one token. *)
Definition hub0 : Hub := mkHub ∅ [lit "hf_secret"].

Definition w0 : world := mkWorld [] hub0 [].

Definition args0 (metadata_filename : string) : Args :=
  mkArgs (lit "corpus") (lit metadata_filename) (lit "wavs") (lit ".wav")
         (-1) 24000 (lit "Thorsten-Voice/TV-24kHz-Full") None false.

(** A normaliser that answers every call with its text in brackets. *)
Definition bracket_normalizer (c : Cleaning.normalizer_call) : option str :=
  Some (lit "<" ++ Cleaning.call_text c ++ lit ">").

Definition cleaning_w0 : Cleaning.world := Cleaning.mkWorld [] [].

End Examples.

(** ** Further definitions for the edge behaviour *)

Module Edge.
Import Py Hf LJSpeech2HF.

(** The key whose lookup [build_hf_audio_dataset] fails on first, for a
    record that lacks one: the keys are read in the order [id], [text],
    [audio_path]. *)
Definition first_missing_key (ex : dict) : option string :=
  match ex !! "id" with
  | None => Some "id"%string
  | Some _ =>
      match ex !! "text" with
      | None => Some "text"%string
      | Some _ =>
          match ex !! "audio_path" with
          | None => Some "audio_path"%string
          | Some _ => None
          end
      end
  end.

(** A string without the separator [sep]. *)
Definition nosep (sep : N) (s : str) : Prop :=
  forallb (fun c => negb (c =? sep)%N) s = true.

(** A file system whose metadata file names an audio file by an absolute
    path. *)
Definition abs_fs : filesystem :=
  mkFs
    (fun p => bool_decide (p ∈ [ lit "corpus/metadata.csv"; lit "/data/x.wav" ]))
    (fun p =>
       if bool_decide (p = lit "corpus/metadata.csv")
       then [ lit "/data/x|hello" ++ [10%N] ]
       else []).

(** An environment that holds a token. *)
Definition env_token : gmap string str := <["HF_TOKEN" := lit "hf_secret"]> ∅.

End Edge.

(** * Properties *)

(** ** Facts about the Python primitives *)

Module PyFacts.
Import Py.

(** *** White space and [strip] *)

Lemma lstrip_spaces_app (ws s : str) :
  forallb isspace ws = true -> lstrip (ws ++ s) = lstrip s.
Proof.
  induction ws as [|c ws IH]; simpl; [done|].
  intros H. apply andb_true_iff in H as [Hc Hws]. rewrite Hc. auto.
Qed.

Lemma lstrip_spaces (ws : str) : forallb isspace ws = true -> lstrip ws = [].
Proof.
  intros H. rewrite <- (app_nil_r ws). by rewrite lstrip_spaces_app.
Qed.

(** [lstrip] removes a prefix of white space and nothing else. *)
Lemma lstrip_prefix (s : str) :
  exists ws, forallb isspace ws = true /\ s = ws ++ lstrip s.
Proof.
  induction s as [|c s (ws & Hws & Hs)]; simpl.
  - by exists [].
  - destruct (isspace c) eqn:Hc.
    + exists (c :: ws). simpl. rewrite Hc, Hws. split; [done|]. by f_equal.
    + by exists [].
Qed.

Lemma forallb_rev {A} (p : A -> bool) (l : list A) :
  forallb p (rev l) = forallb p l.
Proof.
  induction l as [|x l IH]; simpl; [done|].
  rewrite forallb_app, IH. simpl. rewrite andb_true_r. apply andb_comm.
Qed.

Lemma rstrip_app_spaces (s ws : str) :
  forallb isspace ws = true -> rstrip (s ++ ws) = rstrip s.
Proof.
  intros H. unfold rstrip. rewrite rev_app_distr.
  rewrite lstrip_spaces_app; [done|]. by rewrite forallb_rev.
Qed.

Lemma rstrip_suffix (s : str) :
  exists ws, forallb isspace ws = true /\ s = rstrip s ++ ws.
Proof.
  destruct (lstrip_prefix (rev s)) as (ws & Hws & Hs).
  exists (rev ws). rewrite forallb_rev. split; [done|].
  unfold rstrip. rewrite <- rev_app_distr, <- Hs. by rewrite rev_involutive.
Qed.

(** What [lstrip] does to a string followed by white space. *)
Lemma lstrip_app_spaces (s ws : str) :
  forallb isspace ws = true ->
  exists ws', forallb isspace ws' = true /\ lstrip (s ++ ws) = lstrip s ++ ws'.
Proof.
  intros H. induction s as [|c s IH]; simpl.
  - exists []. by rewrite lstrip_spaces.
  - destruct (isspace c); [done|]. by exists ws.
Qed.

Lemma strip_spaces_app (ws s : str) :
  forallb isspace ws = true -> strip (ws ++ s) = strip s.
Proof. intros H. unfold strip. by rewrite lstrip_spaces_app. Qed.

Lemma strip_app_spaces (s ws : str) :
  forallb isspace ws = true -> strip (s ++ ws) = strip s.
Proof.
  intros H. unfold strip.
  destruct (lstrip_app_spaces s ws H) as (ws' & Hws' & ->).
  by apply rstrip_app_spaces.
Qed.

(** A line is its stripped form between two runs of white space. *)
Lemma strip_sandwich (s : str) :
  exists ws1 ws2,
    forallb isspace ws1 = true /\ forallb isspace ws2 = true /\
    s = ws1 ++ strip s ++ ws2.
Proof.
  destruct (lstrip_prefix s) as (ws1 & H1 & Hs).
  destruct (rstrip_suffix (lstrip s)) as (ws2 & H2 & Hl).
  exists ws1, ws2. repeat split; [done..|].
  unfold strip. by rewrite <- Hl.
Qed.

(** *** [split] *)

Lemma split_cons (sep : N) (s : str) : exists f fs, split sep s = f :: fs.
Proof.
  destruct s as [|c s]; simpl; [by eexists _, _|].
  destruct (c =? sep)%N; [by eexists _, _|].
  destruct (split sep s); by eexists _, _.
Qed.

Lemma split_snoc (sep : N) (s : str) : exists fs l, split sep s = fs ++ [l].
Proof.
  destruct (split_cons sep s) as (f & fs & H).
  destruct (exists_last (l := split sep s)) as (fs' & l & E); [by rewrite H|].
  by exists fs', l.
Qed.

Lemma split_nosep (sep : N) (ws : str) :
  forallb (fun c => negb (c =? sep)%N) ws = true -> split sep ws = [ws].
Proof.
  induction ws as [|c ws IH]; simpl; [done|].
  intros H. apply andb_true_iff in H as [Hc Hws].
  apply negb_true_iff in Hc. rewrite Hc, IH; done.
Qed.

Lemma split_app_l (sep : N) (ws s f : str) (fs : list str) :
  forallb (fun c => negb (c =? sep)%N) ws = true ->
  split sep s = f :: fs -> split sep (ws ++ s) = (ws ++ f) :: fs.
Proof.
  intros Hws Hs. induction ws as [|c ws IH]; simpl; [done|].
  simpl in Hws. apply andb_true_iff in Hws as [Hc Hws].
  apply negb_true_iff in Hc. rewrite Hc, IH; done.
Qed.

Lemma split_app_r (sep : N) (ws : str) :
  forallb (fun c => negb (c =? sep)%N) ws = true ->
  forall (s l : str) (fs : list str),
    split sep s = fs ++ [l] -> split sep (s ++ ws) = fs ++ [l ++ ws].
Proof.
  intros Hws. induction s as [|c s IH]; intros l fs Hs; simpl in *.
  - destruct fs as [|f [|??]]; simplify_eq/=. by rewrite split_nosep.
  - destruct (c =? sep)%N.
    + destruct fs as [|f fs]; simpl in Hs.
      * destruct (split_cons sep s) as (? & ? & E). rewrite E in Hs. done.
      * injection Hs as <- Hs. by rewrite (IH _ _ Hs).
    + destruct (split_cons sep s) as (f0 & rest & E). rewrite E in Hs.
      destruct fs as [|f fs]; simpl in Hs.
      * injection Hs as <- ->. rewrite (IH f0 [] E). done.
      * injection Hs as <- ->. rewrite (IH l (f0 :: fs) E). done.
  Qed.

Lemma spaces_nosep (sep : N) (ws : str) :
  isspace sep = false -> forallb isspace ws = true ->
  forallb (fun c => negb (c =? sep)%N) ws = true.
Proof.
  intros Hsep H. induction ws as [|c ws IH]; simpl in *; [done|].
  apply andb_true_iff in H as [Hc Hws]. rewrite IH by done.
  rewrite andb_true_r. apply negb_true_iff, N.eqb_neq. by intros ->; congruence.
Qed.

(** Stripping the line first does not change the trimmed fields. *)
Lemma split_strip_fields (sep : N) (line : str) :
  isspace sep = false ->
  strip <$> split sep (strip line) = strip <$> split sep line.
Proof.
  intros Hsep.
  destruct (strip_sandwich line) as (ws1 & ws2 & H1 & H2 & E).
  rewrite E at 2.
  destruct (split_snoc sep (strip line)) as (fs & l & Hs).
  pose proof (split_app_r sep ws2 (spaces_nosep _ _ Hsep H2) _ _ _ Hs) as Hr.
  destruct fs as [|f fs]; simpl in *.
  - rewrite (split_app_l sep ws1 _ _ _ (spaces_nosep _ _ Hsep H1) Hr), Hs.
    simpl. by rewrite strip_spaces_app, strip_app_spaces.
  - rewrite (split_app_l sep ws1 _ _ _ (spaces_nosep _ _ Hsep H1) Hr), Hs.
    simpl. rewrite strip_spaces_app by done.
    rewrite !fmap_app. simpl. by rewrite strip_app_spaces.
Qed.

Lemma split_strip_length (sep : N) (line : str) :
  isspace sep = false ->
  length (split sep (strip line)) = length (split sep line).
Proof.
  intros H. rewrite <- (length_fmap strip), split_strip_fields by done.
  by rewrite length_fmap.
Qed.

Lemma split_strip_lookup (sep : N) (line : str) (k : nat) :
  isspace sep = false ->
  strip <$> (split sep (strip line) !! k) = strip <$> (split sep line !! k).
Proof.
  intros H. rewrite <- !list_lookup_fmap. by rewrite split_strip_fields.
Qed.

(** A line of at least two fields holds the separator, so it is not blank. *)
Lemma split_blank (sep : N) (line : str) :
  isspace sep = false -> strip line = [] -> split sep line = [line].
Proof.
  intros Hsep Hb. destruct (strip_sandwich line) as (ws1 & ws2 & H1 & H2 & E).
  rewrite Hb in E. simpl in E. rewrite E. apply split_nosep.
  apply spaces_nosep; [done|]. by rewrite forallb_app, H1, H2.
Qed.

(** *** [posixpath.join] *)

Lemma endswith_sep_snoc (l : str) (x : N) :
  endswith_sep (l ++ [x]) = (x =? slash)%N.
Proof. unfold endswith_sep. by rewrite rev_unit. Qed.

Lemma endswith_sep_app (a b : str) :
  b <> [] -> endswith_sep (a ++ b) = endswith_sep b.
Proof.
  intros Hb. destruct (exists_last Hb) as (b' & x & ->).
  by rewrite app_assoc, !endswith_sep_snoc.
Qed.

Lemma join_step_abs (a c : str) :
  startswith_sep c = true -> join_step a c = c.
Proof. intros H. unfold join_step. by rewrite H. Qed.

Lemma join_step_rel (a c : str) :
  startswith_sep c = false ->
  join_step a c =
    if negb (truthy a) || endswith_sep a then a ++ c else a ++ slash :: c.
Proof. intros H. unfold join_step. by rewrite H. Qed.

(** Joining in two calls, as the script does, is joining in one. *)
Lemma join_step_assoc (a b c : str) :
  join_step a (join_step b c) = join_step (join_step a b) c.
Proof.
  destruct (startswith_sep c) eqn:Hc.
  { by rewrite !(join_step_abs _ c). }
  destruct b as [|b0 b].
  - rewrite (join_step_rel [] c), (join_step_rel a []) by done. simpl.
    rewrite (join_step_rel a c) by done.
    destruct a as [|a0 a]; simpl; [by rewrite join_step_rel|].
    destruct (endswith_sep (a0 :: a)) eqn:Ha.
    + rewrite app_nil_r, join_step_rel by done. simpl. by rewrite Ha.
    + rewrite join_step_rel by done. simpl.
      change (a0 :: a ++ [slash]) with ((a0 :: a) ++ [slash]).
      rewrite endswith_sep_snoc, N.eqb_refl. by rewrite <- app_assoc.
  - assert (Hne : b0 :: b <> []) by done.
    rewrite (join_step_rel (b0 :: b) c) by done.
    simpl (negb (truthy (b0 :: b)) || _).
    destruct (startswith_sep (b0 :: b)) eqn:Hb.
    + rewrite (join_step_abs a (b0 :: b)) by done.
      rewrite (join_step_rel (b0 :: b) c) by done. simpl (negb _ || _).
      apply join_step_abs. by destruct (endswith_sep (b0 :: b)).
    + rewrite (join_step_rel a (b0 :: b)) by done.
      rewrite (join_step_rel a) by by destruct (endswith_sep (b0 :: b)).
      rewrite (join_step_rel _ c) by done.
      destruct (negb (truthy a) || endswith_sep a) eqn:Ha.
      * rewrite endswith_sep_app by done.
        assert (truthy (a ++ b0 :: b) = true) as -> by by destruct a.
        simpl (negb true || _).
        destruct (endswith_sep (b0 :: b)); by rewrite <- app_assoc.
      * change (a ++ slash :: b0 :: b) with (a ++ [slash] ++ (b0 :: b)).
        rewrite (endswith_sep_app a ([slash] ++ b0 :: b)) by done.
        rewrite (endswith_sep_app [slash] (b0 :: b)) by done.
        assert (truthy (a ++ [slash] ++ b0 :: b) = true) as -> by by destruct a.
        simpl (negb true || _).
        destruct (endswith_sep (b0 :: b)); rewrite <- app_assoc; done.
Qed.

Lemma os_path_join_nested (a b c : str) :
  os_path_join a [os_path_join b [c]] = os_path_join a [b; c].
Proof. unfold os_path_join. simpl. apply join_step_assoc. Qed.

End PyFacts.

Module LoadFacts.
Import Py Hf LJSpeech2HF PyFacts.

Lemma isspace_bar : isspace bar = false.
Proof. reflexivity. Qed.

Lemma resolve_index_lt (n : nat) (i : Z) (k : nat) :
  resolve_index n i = Some k -> (k < n)%nat.
Proof.
  unfold resolve_index. intros H.
  destruct (Z.leb_spec 0 i), (Z.ltb_spec i (Z.of_nat n)),
    (Z.leb_spec (- Z.of_nat n) i), (Z.ltb_spec i 0);
    simpl in H; simplify_eq; lia.
Qed.

Lemma resolve_index_first (n : nat) :
  (1 <= n)%nat -> resolve_index n 0 = Some 0%nat.
Proof.
  intros H. unfold resolve_index.
  destruct (Z.ltb_spec 0 (Z.of_nat n)); [done|lia].
Qed.

Lemma resolve_index_last (n : nat) :
  (1 <= n)%nat -> resolve_index n (-1) = Some (n - 1)%nat.
Proof.
  intros H. unfold resolve_index. simpl.
  destruct (Z.leb_spec (- Z.of_nat n) (-1)); [|lia]. simpl.
  f_equal. lia.
Qed.

(** [l[i]] is the element the index resolves to, or [IndexError]. *)
Lemma getitem_resolve {W A} (l : list A) (i : Z) (w : W) :
  getitem l i w =
    match resolve_index (length l) i with
    | Some k =>
        match l !! k with
        | Some x => (w, Normal x)
        | None => (w, Raise IndexError)
        end
    | None => (w, Raise IndexError)
    end.
Proof.
  unfold getitem, resolve_index, raise, ret. cbv zeta.
  destruct (Z.ltb_spec i 0) as [Hn|Hn].
  - destruct (Z.leb_spec 0 i) as [?|_]; [lia|]. simpl. rewrite andb_true_r.
    destruct (Z.leb_spec (- Z.of_nat (length l)) i) as [Hl|Hl].
    + destruct (Z.ltb_spec (i + Z.of_nat (length l)) 0) as [?|_]; [lia|].
      destruct (Z.leb_spec (Z.of_nat (length l)) (i + Z.of_nat (length l)))
        as [?|_]; [lia|]. simpl.
      replace (Z.of_nat (length l) + i) with (i + Z.of_nat (length l)) by lia.
      by destruct (l !! _).
    + destruct (Z.ltb_spec (i + Z.of_nat (length l)) 0) as [_|?]; [done|lia].
  - destruct (Z.leb_spec 0 i) as [_|?]; [|lia]. simpl.
    destruct (Z.ltb_spec i (Z.of_nat (length l))) as [Hl|Hl].
    + destruct (Z.leb_spec (Z.of_nat (length l)) i) as [?|_]; [lia|].
      destruct (Z.ltb_spec i 0) as [?|_]; [lia|].
      by destruct (l !! _).
    + destruct (Z.leb_spec (Z.of_nat (length l)) i) as [_|?]; [|lia].
      rewrite orb_true_r, andb_false_r. done.
Qed.

Section load.

Variable fs : filesystem.
Variables root_dir metadata_filename wav_subdir audio_ext : str.
Variable text_column_index : Z.

Abbreviation load_line := (load_line fs root_dir wav_subdir audio_ext text_column_index).
Abbreviation judge := (judge fs root_dir wav_subdir audio_ext text_column_index).
Abbreviation line_record := (line_record fs root_dir wav_subdir audio_ext text_column_index).
Abbreviation line_diagnostics := (line_diagnostics fs root_dir wav_subdir audio_ext text_column_index).

(** One round of the loop does what [judge] says of the line. *)
Lemma load_line_judge (line : str) (data : list dict) (w : world) :
  load_line line data w =
    (emit w (line_diagnostics line),
     match line_record line with
     | Some d => Normal (data ++ [d])
     | None => Continue
     end).
Proof.
  destruct w as [so h nc].
  unfold LJSpeech2HF.load_line, LJSpeech2HF.line_record,
    LJSpeech2HF.line_diagnostics, LJSpeech2HF.judge, emit, select_text,
    bind, when, try_except, continue, print, ret.
  cbv beta zeta.
  pose proof (split_strip_length bar line isspace_bar) as Hlen.
  pose proof (split_strip_lookup bar line 0 isspace_bar) as H0.
  destruct (truthy (strip line)) eqn:Ht; cbv beta iota zeta delta [negb];
    [|simpl; by rewrite app_nil_r].
  rewrite Hlen.
  destruct (length (split bar line) <? 2)%nat eqn:Hlt; [done|].
  apply Nat.ltb_ge in Hlt.
  rewrite !getitem_resolve, Hlen, resolve_index_first by lia.
  destruct (split bar line) as [|f0 [|f1 fs']] eqn:Hraw; simpl in Hlt; try lia.
  destruct (split bar (strip line)) as [|p0 ps] eqn:Hs; [done|].
  simpl in H0. injection H0 as H0. simpl head. cbv beta iota.
  change ((p0 :: ps) !! 0%nat) with (Some p0). cbv beta iota.
  rewrite getitem_resolve, Hlen.
  destruct (resolve_index _ text_column_index) as [k|] eqn:Hk; [|done].
  pose proof (resolve_index_lt _ _ _ Hk) as Hklt.
  pose proof (split_strip_lookup bar line k isspace_bar) as Hkk.
  rewrite Hs, Hraw in Hkk.
  destruct (lookup_lt_is_Some_2 (f0 :: f1 :: fs') k Hklt) as [ft Hft].
  rewrite Hft in Hkk.
  destruct ((p0 :: ps) !! k) as [pt|] eqn:Hpt; [|done].
  simpl in Hkk. injection Hkk as Hkk. rewrite Hft.
  cbv beta iota.
  rewrite os_path_join_nested, H0, Hkk.
  unfold audio_path_of.
  change (head (f0 :: f1 :: fs')) with (Some f0). cbv beta iota.
  destruct (isfile fs (os_path_join root_dir [wav_subdir; strip f0 ++ audio_ext]))
    eqn:Hf; cbv beta iota.
  - unfold stdout at 1. by rewrite app_nil_r.
  - done.
Qed.


Lemma emit_nil (w : world) : emit w [] = w.
Proof. destruct w. unfold emit. simpl. by rewrite app_nil_r. Qed.

Lemma emit_emit (w : world) (a b : list out) :
  emit (emit w a) b = emit w (a ++ b).
Proof. unfold emit. simpl. by rewrite app_assoc. Qed.

Abbreviation records :=
  (records fs root_dir wav_subdir audio_ext text_column_index).
Abbreviation diagnostics :=
  (diagnostics fs root_dir wav_subdir audio_ext text_column_index).

Lemma records_app (l1 l2 : list str) :
  records (l1 ++ l2) = records l1 ++ records l2.
Proof. apply omap_app. Qed.

Lemma records_cons (line : str) (l : list str) :
  records (line :: l) =
    match line_record line with Some d => d :: records l | None => records l end.
Proof. reflexivity. Qed.

Lemma diagnostics_app (l1 l2 : list str) :
  diagnostics (l1 ++ l2) = diagnostics l1 ++ diagnostics l2.
Proof. unfold LJSpeech2HF.diagnostics. by rewrite fmap_app, concat_app. Qed.

Lemma diagnostics_cons (line : str) (l : list str) :
  diagnostics (line :: l) = line_diagnostics line ++ diagnostics l.
Proof. reflexivity. Qed.

(** The loop never raises: it gathers the records and the diagnostics of
    the lines, in order. *)
Lemma for_each_load_line (lines : list str) (data : list dict) (w : world) :
  for_each lines load_line data w =
    (emit w (diagnostics lines), Normal (data ++ records lines)).
Proof.
  revert data w. induction lines as [|line lines IH]; intros data w.
  - simpl. unfold ret. by rewrite emit_nil, app_nil_r.
  - simpl for_each. rewrite load_line_judge, records_cons, diagnostics_cons.
    destruct (line_record line) as [d|]; rewrite IH, emit_emit;
      [by rewrite <- app_assoc|done].
Qed.

Lemma load_lines_judge (lines : list str) (w : world) :
  load_lines fs root_dir wav_subdir audio_ext text_column_index lines w =
    (emit w (diagnostics lines), Normal (records lines)).
Proof. unfold load_lines. by rewrite for_each_load_line. Qed.

(** [load_ljs_metadata] as a whole. *)
Lemma load_ljs_metadata_judge (w : world) :
  let meta_path := os_path_join root_dir [metadata_filename] in
  let lines := file_lines fs meta_path in
  load_ljs_metadata fs root_dir metadata_filename wav_subdir audio_ext
      text_column_index w =
    if isfile fs meta_path then
      (emit w (diagnostics lines),
       match records lines with
       | [] => Raise (RuntimeError (lit "No valid rows found in metadata file."))
       | _ :: _ => Normal (records lines)
       end)
    else
      (w, Raise (FileNotFoundError (lit "metadata file not found: " ++ meta_path))).
Proof.
  cbv zeta. unfold load_ljs_metadata, bind, when, raise, ret.
  destruct (isfile fs _); cbv beta iota zeta delta [negb]; [|done].
  rewrite load_lines_judge. by destruct (records _).
Qed.

(** What [judge] says of a line with a well-formed, present record. *)
Lemma judge_accepted (line f0 ftext : str) (k : nat) :
  (2 <= length (split bar line))%nat ->
  head (split bar line) = Some f0 ->
  resolve_index (length (split bar line)) text_column_index = Some k ->
  split bar line !! k = Some ftext ->
  isfile fs (os_path_join root_dir [wav_subdir; strip f0 ++ audio_ext]) = true ->
  judge line =
    Accepted (mk_record (strip f0) (strip ftext)
                (os_path_join root_dir [wav_subdir; strip f0 ++ audio_ext])).
Proof.
  intros Hlen Hhd Hk Hft Hf. unfold LJSpeech2HF.judge.
  destruct (truthy (strip line)) eqn:Ht.
  - simpl negb. cbv iota zeta.
    destruct (Nat.ltb_spec (length (split bar line)) 2); [lia|].
    rewrite Hhd, Hk, Hft. unfold audio_path_of. by rewrite Hf.
  - destruct (strip line) eqn:Hs; [|done].
    rewrite (split_blank bar line isspace_bar Hs) in Hlen. simpl in Hlen. lia.
Qed.

(** What [judge] gives when it accepts. *)
Lemma judge_accepted_inv (line : str) (d : dict) :
  judge line = Accepted d ->
  exists f0 ftext k,
    (2 <= length (split bar line))%nat /\
    head (split bar line) = Some f0 /\
    resolve_index (length (split bar line)) text_column_index = Some k /\
    split bar line !! k = Some ftext /\
    isfile fs (os_path_join root_dir [wav_subdir; strip f0 ++ audio_ext]) = true /\
    d = mk_record (strip f0) (strip ftext)
          (os_path_join root_dir [wav_subdir; strip f0 ++ audio_ext]).
Proof.
  unfold LJSpeech2HF.judge. intros H.
  destruct (negb (truthy (strip line))); [done|].
  destruct (Nat.ltb_spec (length (split bar line)) 2); [done|].
  destruct (head (split bar line)) as [f0|] eqn:Hhd; [|done].
  destruct (resolve_index _ _) as [k|] eqn:Hk; [|done].
  destruct (split bar line !! k) as [ft|] eqn:Hft; [|done].
  unfold audio_path_of in H.
  destruct (isfile fs _) eqn:Hf; [|done].
  injection H as <-. exists f0, ft, k. repeat split; done.
Qed.

(** Every diagnostic is a line that starts with the warning tag. *)
Lemma line_diagnostics_warn (line : str) :
  Forall (fun o => exists s, o = OutStr (lit "[WARN] " ++ s))
    (line_diagnostics line).
Proof.
  unfold LJSpeech2HF.line_diagnostics.
  destruct (judge line); repeat constructor.
  - by exists (lit "malformed metadata line (too few columns): " ++ strip line).
  - by exists (lit "text_column_index " ++ str_of_int text_column_index
               ++ lit " invalid for line: " ++ strip line).
  - by exists (lit "audio file not found, skipping: " ++ path).
Qed.

Lemma diagnostics_warn (lines : list str) :
  Forall (fun o => exists s, o = OutStr (lit "[WARN] " ++ s)) (diagnostics lines).
Proof.
  induction lines as [|line lines IH]; [constructor|].
  rewrite diagnostics_cons. apply Forall_app. split; [|done].
  apply line_diagnostics_warn.
Qed.

End load.
End LoadFacts.

(** ** Properties of [load_ljs_metadata] *)

Module LoadProps.
Import Py Hf LJSpeech2HF PyFacts LoadFacts Examples.

(** C1.  A line of the metadata file with at least two fields, a column
    index that resolves to one of them, and an existing audio file at
    [join(root, wavSubdir, id + audioExt)], gives exactly one record, at the
    place of the line among the records of the other lines: its id is the
    first field trimmed, its text the selected field trimmed, its audio
    path that derived path. *)
Theorem load_valid_line_one_record
    (fs : filesystem) (root_dir metadata_filename wav_subdir audio_ext : str)
    (text_column_index : Z) (l1 l2 : list str) (line f0 ftext : str) (k : nat)
    (w : world) :
  isfile fs (os_path_join root_dir [metadata_filename]) = true ->
  file_lines fs (os_path_join root_dir [metadata_filename]) = l1 ++ line :: l2 ->
  (2 <= length (split bar line))%nat ->
  head (split bar line) = Some f0 ->
  resolve_index (length (split bar line)) text_column_index = Some k ->
  split bar line !! k = Some ftext ->
  isfile fs (os_path_join root_dir [wav_subdir; strip f0 ++ audio_ext]) = true ->
  exists w',
    load_ljs_metadata fs root_dir metadata_filename wav_subdir audio_ext
        text_column_index w =
      (w', Normal
             (records fs root_dir wav_subdir audio_ext text_column_index l1
              ++ [ <["id" := strip f0]>
                     (<["text" := strip ftext]>
                        (<["audio_path" :=
                             os_path_join root_dir
                               [wav_subdir; strip f0 ++ audio_ext]]> ∅)) ]
              ++ records fs root_dir wav_subdir audio_ext text_column_index l2)).
Proof.
  intros Hmeta Hlines Hlen Hhd Hk Hft Hf.
  pose proof (load_ljs_metadata_judge fs root_dir metadata_filename wav_subdir
                audio_ext text_column_index w) as H.
  cbv zeta in H. rewrite Hmeta, Hlines in H. rewrite H.
  eexists. f_equal.
  rewrite records_app, records_cons. unfold line_record.
  rewrite (judge_accepted fs root_dir wav_subdir audio_ext text_column_index
             line f0 ftext k) by done.
  unfold mk_record. by destruct (records _ _ _ _ _ l1).
Qed.

(** The last line of the corpus, [  a | second ], read with column 1. *)
Lemma load_valid_line_one_record_witness :
  exists w',
    load_ljs_metadata corpus_fs (lit "corpus") (lit "metadata.csv")
        (lit "wavs") (lit ".wav") 1 w0 =
      (w', Normal
             (records corpus_fs (lit "corpus") (lit "wavs") (lit ".wav") 1
                [ lit "LJ001-0001|Mary had a little lamb.|MARY HAD A LITTLE LAMB." ++ nl;
                  nl; lit "onlyonefield" ++ nl; lit "LJ002-0001|broken" ++ nl ]
              ++ [ <["id" := lit "a"]>
                     (<["text" := lit "second"]>
                        (<["audio_path" := lit "corpus/wavs/a.wav"]> ∅)) ]
              ++ records corpus_fs (lit "corpus") (lit "wavs") (lit ".wav") 1 [])).
Proof.
  apply (load_valid_line_one_record corpus_fs (lit "corpus")
           (lit "metadata.csv") (lit "wavs") (lit ".wav") 1
           [ lit "LJ001-0001|Mary had a little lamb.|MARY HAD A LITTLE LAMB." ++ nl;
             nl; lit "onlyonefield" ++ nl; lit "LJ002-0001|broken" ++ nl ]
           [] (lit "  a | second " ++ nl) (lit "  a ") (lit " second " ++ nl)
           1%nat w0);
    vm_compute; (reflexivity || lia).
Defined.

(** What a line that is not blank and fails one of the three checks
    contributes: one warning and no record. *)
Lemma rejected_line
    (fs : filesystem) (root_dir wav_subdir audio_ext : str)
    (text_column_index : Z) (line : str) :
  strip line <> [] ->
  ((length (split bar line) < 2)%nat
   \/ resolve_index (length (split bar line)) text_column_index = None
   \/ exists f0, head (split bar line) = Some f0 /\
        isfile fs (os_path_join root_dir [wav_subdir; strip f0 ++ audio_ext])
          = false) ->
  line_record fs root_dir wav_subdir audio_ext text_column_index line = None /\
  exists s,
    line_diagnostics fs root_dir wav_subdir audio_ext text_column_index line
      = [OutStr (lit "[WARN] " ++ s)].
Proof.
  intros Hnb Hbad.
  pose proof (line_diagnostics_warn fs root_dir wav_subdir audio_ext
                text_column_index line) as Hw.
  unfold line_record, line_diagnostics in *.
  destruct (judge fs root_dir wav_subdir audio_ext text_column_index line)
    as [| | |path|d] eqn:Hj.
  - exfalso. unfold judge in Hj.
    destruct (strip line) eqn:Hs; [done|]. simpl in Hj.
    repeat case_match; done.
  - split; [done|].
    destruct (proj1 (Forall_singleton _ _) Hw) as [s Hs]. exists s. by rewrite Hs.
  - split; [done|].
    destruct (proj1 (Forall_singleton _ _) Hw) as [s Hs]. exists s. by rewrite Hs.
  - split; [done|].
    destruct (proj1 (Forall_singleton _ _) Hw) as [s Hs]. exists s. by rewrite Hs.
  - exfalso. apply judge_accepted_inv in Hj
      as (f0 & ft & k & Hlen & Hhd & Hk & _ & Hf & _).
    destruct Hbad as [?|[?|(f & Hf0 & Hf')]]; [lia|congruence|].
    rewrite Hhd in Hf0. injection Hf0 as <-. congruence.
Qed.

(** C3, as stated, fails on a blank line: the empty line of a file has one
    field, fewer than two, and the loop passes over it without a
    diagnostic. *)
Lemma blank_line_no_diagnostic :
  ~ (forall line : str,
       (length (split bar line) < 2)%nat ->
       exists msg,
         load_line corpus_fs (lit "corpus") (lit "wavs") (lit ".wav") (-1)
           line [] w0 = (emit w0 [OutStr msg], Continue)).
Proof.
  intros H. destruct (H nl) as [msg Hmsg]; [vm_compute; lia|].
  vm_compute in Hmsg. discriminate Hmsg.
Qed.

(** C3, amended.  A line that is not blank and has fewer than two fields,
    or a column index out of range for its fields, or no audio file at its
    derived path, makes the loop emit one warning and add no record; the
    loop raises nothing and goes on with the lines that follow. *)
Theorem bad_line_skipped_with_diagnostic
    (fs : filesystem) (root_dir wav_subdir audio_ext : str)
    (text_column_index : Z) (l1 l2 : list str) (line : str) (w : world) :
  strip line <> [] ->
  ((length (split bar line) < 2)%nat
   \/ resolve_index (length (split bar line)) text_column_index = None
   \/ exists f0, head (split bar line) = Some f0 /\
        isfile fs (os_path_join root_dir [wav_subdir; strip f0 ++ audio_ext])
          = false) ->
  exists s,
    load_lines fs root_dir wav_subdir audio_ext text_column_index
        (l1 ++ line :: l2) w =
      (emit w
         (diagnostics fs root_dir wav_subdir audio_ext text_column_index l1
          ++ [OutStr (lit "[WARN] " ++ s)]
          ++ diagnostics fs root_dir wav_subdir audio_ext text_column_index l2),
       Normal
         (records fs root_dir wav_subdir audio_ext text_column_index l1
          ++ records fs root_dir wav_subdir audio_ext text_column_index l2)).
Proof.
  intros Hnb Hbad.
  destruct (rejected_line fs root_dir wav_subdir audio_ext text_column_index
              line Hnb Hbad) as (Hrec & s & Hdiag).
  exists s. rewrite load_lines_judge.
  rewrite records_app, records_cons, Hrec.
  by rewrite diagnostics_app, diagnostics_cons, Hdiag.
Qed.

(** The line [onlyonefield], between a good line and a line without audio. *)
Lemma bad_line_skipped_with_diagnostic_witness :
  exists s,
    load_lines corpus_fs (lit "corpus") (lit "wavs") (lit ".wav") (-1)
        ([ lit "LJ001-0001|Mary had a little lamb.|MARY HAD A LITTLE LAMB." ++ nl ]
         ++ (lit "onlyonefield" ++ nl) :: [ lit "LJ002-0001|broken" ++ nl ]) w0 =
      (emit w0
         (diagnostics corpus_fs (lit "corpus") (lit "wavs") (lit ".wav") (-1)
            [ lit "LJ001-0001|Mary had a little lamb.|MARY HAD A LITTLE LAMB." ++ nl ]
          ++ [OutStr (lit "[WARN] " ++ s)]
          ++ diagnostics corpus_fs (lit "corpus") (lit "wavs") (lit ".wav") (-1)
               [ lit "LJ002-0001|broken" ++ nl ]),
       Normal
         (records corpus_fs (lit "corpus") (lit "wavs") (lit ".wav") (-1)
            [ lit "LJ001-0001|Mary had a little lamb.|MARY HAD A LITTLE LAMB." ++ nl ]
          ++ records corpus_fs (lit "corpus") (lit "wavs") (lit ".wav") (-1)
               [ lit "LJ002-0001|broken" ++ nl ])).
Proof.
  apply (bad_line_skipped_with_diagnostic corpus_fs (lit "corpus") (lit "wavs")
           (lit ".wav") (-1)
           [ lit "LJ001-0001|Mary had a little lamb.|MARY HAD A LITTLE LAMB." ++ nl ]
           [ lit "LJ002-0001|broken" ++ nl ] (lit "onlyonefield" ++ nl) w0).
  - vm_compute. discriminate.
  - left. vm_compute. lia.
Defined.

(** C4.  With the column index [-1] the text of a line of at least two
    fields is its last field, whatever the number of fields: the [try]
    block returns it trimmed, without warning, and the record of a line
    whose audio file exists carries it, next to the records of the other
    lines of the file. *)
Theorem minus_one_selects_last
    (fs : filesystem) (root_dir metadata_filename wav_subdir audio_ext : str)
    (l1 l2 : list str) (line f0 flast : str) (w : world) :
  (2 <= length (split bar line))%nat ->
  head (split bar line) = Some f0 ->
  last (split bar line) = Some flast ->
  select_text (-1) (split bar (strip line)) (strip line) w
    = (w, Normal (strip flast))
  /\ (isfile fs (os_path_join root_dir [metadata_filename]) = true ->
      file_lines fs (os_path_join root_dir [metadata_filename])
        = l1 ++ line :: l2 ->
      isfile fs (os_path_join root_dir [wav_subdir; strip f0 ++ audio_ext])
        = true ->
      exists w',
        load_ljs_metadata fs root_dir metadata_filename wav_subdir audio_ext
            (-1) w =
          (w', Normal
                 (records fs root_dir wav_subdir audio_ext (-1) l1
                  ++ [ <["id" := strip f0]>
                         (<["text" := strip flast]>
                            (<["audio_path" :=
                                 os_path_join root_dir
                                   [wav_subdir; strip f0 ++ audio_ext]]> ∅)) ]
                  ++ records fs root_dir wav_subdir audio_ext (-1) l2))).
Proof.
  intros Hlen Hhd Hlast. rewrite last_lookup in Hlast.
  assert (Hk : resolve_index (length (split bar line)) (-1)
               = Some (pred (length (split bar line)))).
  { rewrite resolve_index_last by lia. f_equal. lia. }
  split.
  - unfold select_text, try_except, bind, ret.
    rewrite getitem_resolve, (split_strip_length bar line isspace_bar), Hk.
    pose proof (split_strip_lookup bar line (pred (length (split bar line)))
                  isspace_bar) as Hl.
    rewrite Hlast in Hl.
    destruct (split bar (strip line) !! _) as [p|]; [|done].
    simpl in Hl. by injection Hl as ->.
  - intros Hmeta Hlines Hf.
    pose proof (load_ljs_metadata_judge fs root_dir metadata_filename
                  wav_subdir audio_ext (-1) w) as H.
    cbv zeta in H. rewrite Hmeta, Hlines in H. rewrite H.
    eexists. f_equal.
    rewrite records_app, records_cons. unfold line_record.
    rewrite (judge_accepted fs root_dir wav_subdir audio_ext (-1)
               line f0 flast _ Hlen Hhd Hk Hlast Hf).
    unfold mk_record. by destruct (records _ _ _ _ _ l1).
Qed.

(** A line of three fields, in a file whose other lines have one and two. *)
Lemma minus_one_selects_last_witness :
  select_text (-1)
    (split bar (strip (lit "LJ001-0001|Mary had a little lamb.|MARY HAD A LITTLE LAMB." ++ nl)))
    (strip (lit "LJ001-0001|Mary had a little lamb.|MARY HAD A LITTLE LAMB." ++ nl))
    w0
  = (w0, Normal (strip (lit "MARY HAD A LITTLE LAMB." ++ nl))).
Proof.
  refine (proj1 (minus_one_selects_last corpus_fs (lit "corpus")
                   (lit "metadata.csv") (lit "wavs") (lit ".wav") []
                   [ nl; lit "onlyonefield" ++ nl; lit "LJ002-0001|broken" ++ nl;
                     lit "  a | second " ++ nl ]
                   (lit "LJ001-0001|Mary had a little lamb.|MARY HAD A LITTLE LAMB." ++ nl)
                   (lit "LJ001-0001") (lit "MARY HAD A LITTLE LAMB." ++ nl) w0
                   _ _ _));
    vm_compute; (reflexivity || lia).
Defined.

(** C5, as stated, fails: a line that begins with the separator has an
    empty first field, and when the audio directory holds a file named by
    the bare extension the line gives a record whose id is empty. *)
Lemma empty_id_record :
  load_ljs_metadata corpus_fs (lit "corpus") (lit "empty_id.csv") (lit "wavs")
      (lit ".wav") (-1) w0
    = (w0, Normal [ <["id" := []]>
                      (<["text" := lit "x"]>
                         (<["audio_path" := lit "corpus/wavs/.wav"]> ∅)) ])
  /\ (<["id" := []]>
        (<["text" := lit "x"]>
           (<["audio_path" := lit "corpus/wavs/.wav"]> (∅ : dict)))) !! "id"
     = Some [].
Proof. split; vm_compute; reflexivity. Qed.

(** C5, amended.  The id of a record that [load_ljs_metadata] returns is
    the first field of a line of the file, trimmed, and the audio file that
    id names exists; so the id is not empty unless the file named by the
    bare extension, [join(root, wavSubdir, audioExt)], exists. *)
Theorem record_id_first_field
    (fs : filesystem) (root_dir metadata_filename wav_subdir audio_ext : str)
    (text_column_index : Z) (w w' : world) (data : list dict) (d : dict) :
  load_ljs_metadata fs root_dir metadata_filename wav_subdir audio_ext
      text_column_index w = (w', Normal data) ->
  d ∈ data ->
  exists line f0,
    line ∈ file_lines fs (os_path_join root_dir [metadata_filename]) /\
    head (split bar line) = Some f0 /\
    d !! "id" = Some (strip f0) /\
    isfile fs (os_path_join root_dir [wav_subdir; strip f0 ++ audio_ext]) = true /\
    (isfile fs (os_path_join root_dir [wav_subdir; audio_ext]) = false ->
     strip f0 <> []).
Proof.
  intros Hload Hd.
  pose proof (load_ljs_metadata_judge fs root_dir metadata_filename wav_subdir
                audio_ext text_column_index w) as H.
  cbv zeta in H. rewrite Hload in H.
  destruct (isfile fs (os_path_join root_dir [metadata_filename])); [|done].
  assert (data = records fs root_dir wav_subdir audio_ext text_column_index
                   (file_lines fs (os_path_join root_dir [metadata_filename])))
    as ->.
  { destruct (records _ _ _ _ _ _); by simplify_eq. }
  unfold records in Hd. apply list_elem_of_omap in Hd as (line & Hline & Hrec).
  unfold line_record in Hrec.
  destruct (judge _ _ _ _ _ line) eqn:Hj; try done. injection Hrec as ->.
  apply judge_accepted_inv in Hj as (f0 & ft & k & _ & Hhd & _ & _ & Hf & ->).
  exists line, f0. repeat split; try done.
  intros Hext He. rewrite He in Hf.
  change ([] ++ audio_ext) with audio_ext in Hf. congruence.
Qed.

(** The record of the line [a|] of the corpus. *)
Lemma record_id_first_field_witness :
  exists line f0,
    line ∈ file_lines corpus_fs (os_path_join (lit "corpus") [lit "trailing.csv"]) /\
    head (split bar line) = Some f0 /\
    (<["id" := lit "a"]>
       (<["text" := []]>
          (<["audio_path" := lit "corpus/wavs/a.wav"]> (∅ : dict)))) !! "id"
      = Some (strip f0) /\
    isfile corpus_fs (os_path_join (lit "corpus") [lit "wavs"; strip f0 ++ lit ".wav"])
      = true /\
    (isfile corpus_fs (os_path_join (lit "corpus") [lit "wavs"; lit ".wav"]) = false ->
     strip f0 <> []).
Proof.
  apply (record_id_first_field corpus_fs (lit "corpus") (lit "trailing.csv")
           (lit "wavs") (lit ".wav") (-1) w0 w0
           [ <["id" := lit "a"]>
               (<["text" := []]>
                  (<["audio_path" := lit "corpus/wavs/a.wav"]> ∅)) ]).
  - vm_compute. reflexivity.
  - apply list_elem_of_singleton. reflexivity.
Defined.

(** C9.  The text of a record may be empty: the line [a|], whose last
    field is empty, with its audio file present, gives a record whose text
    is the empty string. *)
Theorem empty_text_record :
  exists (line : str) (d : dict),
    file_lines corpus_fs (os_path_join (lit "corpus") [lit "trailing.csv"])
      = [line] /\
    last (split bar (strip line)) = Some [] /\
    load_ljs_metadata corpus_fs (lit "corpus") (lit "trailing.csv")
        (lit "wavs") (lit ".wav") (-1) w0 = (w0, Normal [d]) /\
    d !! "text" = Some [].
Proof.
  exists (lit "a|" ++ nl),
    (<["id" := lit "a"]>
       (<["text" := []]> (<["audio_path" := lit "corpus/wavs/a.wav"]> ∅))).
  repeat split; vm_compute; reflexivity.
Qed.

End LoadProps.

(** ** Properties of the pipeline: [main], the Dataset, the hub *)

Module PipelineProps.
Import Py Hf LJSpeech2HF PyFacts LoadFacts Examples.

(** C2.  When the metadata file exists and no line of it gives a record,
    [load_ljs_metadata] raises the fatal error of the empty dataset, and
    [main] ends with it having printed only its first line and the
    warnings: no Dataset is built, the hub is not touched and no network
    call is made.  When some record survives, [load_ljs_metadata] returns
    the surviving records and raises nothing. *)
Theorem empty_dataset_error
    (env : gmap string str) (fs : filesystem) (args : Args) (w : world) :
  let meta_path :=
    os_path_join (args_root_dir args) [args_metadata_filename args] in
  let survivors :=
    records fs (args_root_dir args) (args_wav_subdir args)
      (args_audio_ext args) (args_text_column_index args)
      (file_lines fs meta_path) in
  let warnings :=
    diagnostics fs (args_root_dir args) (args_wav_subdir args)
      (args_audio_ext args) (args_text_column_index args)
      (file_lines fs meta_path) in
  let load :=
    load_ljs_metadata fs (args_root_dir args) (args_metadata_filename args)
      (args_wav_subdir args) (args_audio_ext args)
      (args_text_column_index args) in
  let no_rows := RuntimeError (lit "No valid rows found in metadata file.") in
  isfile fs meta_path = true ->
  Forall (fun o => exists s, o = OutStr (lit "[WARN] " ++ s)) warnings /\
  (survivors = [] ->
   load w = (emit w warnings, Raise no_rows) /\
   main env fs args w =
     (emit w (OutStr (lit "[INFO] Loading metadata...") :: warnings),
      Raise no_rows)) /\
  (survivors <> [] -> load w = (emit w warnings, Normal survivors)).
Proof.
  cbv zeta. intros Hmeta.
  assert (Hload : forall w0,
    load_ljs_metadata fs (args_root_dir args) (args_metadata_filename args)
      (args_wav_subdir args) (args_audio_ext args)
      (args_text_column_index args) w0 =
    (emit w0 (diagnostics fs (args_root_dir args) (args_wav_subdir args)
                (args_audio_ext args) (args_text_column_index args)
                (file_lines fs (os_path_join (args_root_dir args)
                                  [args_metadata_filename args]))),
     match records fs (args_root_dir args) (args_wav_subdir args)
             (args_audio_ext args) (args_text_column_index args)
             (file_lines fs (os_path_join (args_root_dir args)
                               [args_metadata_filename args])) with
     | [] => Raise (RuntimeError (lit "No valid rows found in metadata file."))
     | d :: ds => Normal (d :: ds)
     end)).
  { intros w0.
    pose proof (load_ljs_metadata_judge fs (args_root_dir args)
                  (args_metadata_filename args) (args_wav_subdir args)
                  (args_audio_ext args) (args_text_column_index args) w0) as H.
    cbv zeta in H. rewrite Hmeta in H. rewrite H. by destruct (records _ _ _ _ _ _). }
  split; [apply diagnostics_warn|]. split.
  - intros Hnone. split.
    + by rewrite Hload, Hnone.
    + unfold main. unfold bind at 1. unfold print at 1.
      unfold bind at 1. rewrite Hload, Hnone.
      unfold emit. simpl. by rewrite <- app_assoc.
  - intros Hsome. rewrite Hload. by destruct (records _ _ _ _ _ _).
Qed.

(** A metadata file whose two lines are both rejected. *)
Lemma empty_dataset_error_witness :
  main ∅ corpus_fs (args0 "broken.csv") w0 =
    (emit w0
       (OutStr (lit "[INFO] Loading metadata...")
        :: diagnostics corpus_fs (lit "corpus") (lit "wavs") (lit ".wav") (-1)
             (file_lines corpus_fs (lit "corpus/broken.csv"))),
     Raise (RuntimeError (lit "No valid rows found in metadata file."))).
Proof.
  refine (proj2 (proj1 (proj2
    (empty_dataset_error ∅ corpus_fs (args0 "broken.csv") w0 _)) _)).
  - vm_compute. reflexivity.
  - vm_compute. reflexivity.
Defined.

(** C6.  The token of [push_dataset_to_hub] is the one passed, else the
    value of [HF_TOKEN]; the calls to the hub carry it.  With neither, the
    function raises before any call: the world, and so the list of network
    calls, is as it was. *)
Theorem token_resolution
    (env : gmap string str) (ds : Dataset) (repo_id : str)
    (hf_token : option str) (private : bool) (w : world) :
  let run := push_dataset_to_hub env ds repo_id hf_token private w in
  match hf_token, env !! "HF_TOKEN" with
  | Some token, _ | None, Some token =>
      run = bind (ensure_repo repo_id private token)
                 (fun _ => push_to_hub ds repo_id token) w
      /\ (net_calls (fst run) =
            net_calls w
            ++ [CallCreateRepo repo_id (lit "dataset") private true token]
          \/ net_calls (fst run) =
            net_calls w
            ++ [CallCreateRepo repo_id (lit "dataset") private true token;
                CallPushToHub ds repo_id token])
  | None, None =>
      run = (w, Raise (RuntimeError
        (lit "No HF token found. Pass --hf-token or set HF_TOKEN env variable.")))
  end.
Proof.
  cbv zeta.
  assert (Hcalls : forall token,
    let r := bind (ensure_repo repo_id private token)
                  (fun _ => push_to_hub ds repo_id token) w in
    net_calls (fst r) =
      net_calls w ++ [CallCreateRepo repo_id (lit "dataset") private true token]
    \/ net_calls (fst r) =
      net_calls w ++ [CallCreateRepo repo_id (lit "dataset") private true token;
                      CallPushToHub ds repo_id token]).
  { intros token. cbv zeta.
    unfold bind, ensure_repo, create_repo, push_to_hub.
    destruct (token_ok (hub w) token) eqn:Htok; simpl; [|by left].
    destruct (hub_repos (hub w) !! _); simpl.
    - unfold token_ok in *. simpl. rewrite Htok. simpl. right.
      by rewrite <- app_assoc.
    - unfold token_ok in *. simpl. rewrite Htok. simpl. right.
      by rewrite <- app_assoc. }
  unfold push_dataset_to_hub, os_getenv.
  destruct hf_token as [token|]; [|destruct (env !! "HF_TOKEN") as [token|]].
  - split; [done|]. apply Hcalls.
  - split; [done|]. apply Hcalls.
  - done.
Qed.

(** The rows of a Dataset follow its records, one for one. *)
Lemma for_each_build_row (examples : list dict) (rows0 rows : list dict)
    (w : world) :
  Forall2 (fun ex row => dataset_row ex = Some row) examples rows ->
  for_each examples build_row rows0 w = (w, Normal (rows0 ++ rows)).
Proof.
  intros H. revert rows0. induction H as [|ex row exs rs Hrow _ IH]; intros rows0.
  - simpl. unfold ret. by rewrite app_nil_r.
  - simpl for_each.
    assert (build_row ex rows0 w = (w, Normal (rows0 ++ [row]))) as ->.
    { unfold build_row, dataset_row, bind, dict_getitem, ret, raise in *.
      destruct (ex !! "id"); [|done].
      destruct (ex !! "text"); [|done].
      destruct (ex !! "audio_path"); [|done]. by injection Hrow as <-. }
    rewrite IH. by rewrite <- app_assoc.
Qed.

(** C7.  From records that have their three keys,
    [build_hf_audio_dataset] returns, whatever the world and without
    changing it, the Dataset of the declared schema whose rows are the rows
    of the records, one for each record and in the order of the records:
    nothing is sorted and nothing is dropped. *)
Theorem build_rows_in_order (examples : list dict) (sampling_rate : Z) :
  Forall (fun ex => is_Some (ex !! "id") /\ is_Some (ex !! "text")
                    /\ is_Some (ex !! "audio_path")) examples ->
  exists rows,
    Forall2 (fun ex row => dataset_row ex = Some row) examples rows /\
    length rows = length examples /\
    forall w,
      build_hf_audio_dataset examples sampling_rate w =
        (w, Normal (mkDataset (schema sampling_rate) rows)).
Proof.
  intros Hkeys.
  assert (exists rows,
            Forall2 (fun ex row => dataset_row ex = Some row) examples rows)
    as [rows Hrows].
  { induction Hkeys as [|ex exs ([i Hi] & [t Ht] & [a Ha]) _ [rows IH]].
    - exists []. constructor.
    - eexists (_ :: rows). constructor; [|done].
      unfold dataset_row. by rewrite Hi, Ht, Ha. }
  exists rows. split; [done|]. split.
  { symmetry. by eapply Forall2_length. }
  intros w. unfold build_hf_audio_dataset, bind.
  by rewrite (for_each_build_row examples [] rows w Hrows).
Qed.

(** Two records of the same id give two rows. *)
Lemma build_rows_in_order_witness :
  exists rows,
    Forall2 (fun ex row => dataset_row ex = Some row)
      [ mk_record (lit "a") (lit "one") (lit "corpus/wavs/a.wav");
        mk_record (lit "a") (lit "two") (lit "corpus/wavs/a.wav") ] rows /\
    length rows = 2%nat /\
    forall w,
      build_hf_audio_dataset
        [ mk_record (lit "a") (lit "one") (lit "corpus/wavs/a.wav");
          mk_record (lit "a") (lit "two") (lit "corpus/wavs/a.wav") ] 24000 w =
        (w, Normal (mkDataset (schema 24000) rows)).
Proof.
  apply (build_rows_in_order
           [ mk_record (lit "a") (lit "one") (lit "corpus/wavs/a.wav");
             mk_record (lit "a") (lit "two") (lit "corpus/wavs/a.wav") ] 24000).
  repeat constructor; vm_compute; eexists; reflexivity.
Defined.

(** C8.  Creating the repository as [push_dataset_to_hub] does, with
    [exist_ok], is create-if-absent and idempotent.  With a token the hub
    accepts the call succeeds, by one request that carries [exist_ok]; after
    it the repository exists, as it was if it was there before and else
    empty with the visibility asked for.  The same call then succeeds
    again and leaves the hub and the output as they are, where the call
    without [exist_ok] would fail on the existing repository. *)
Theorem ensure_repo_idempotent
    (repo_id : str) (private : bool) (token : str) (w : world) :
  token_ok (hub w) token = true ->
  exists w1,
    ensure_repo repo_id private token w = (w1, Normal tt) /\
    net_calls w1 =
      net_calls w ++ [CallCreateRepo repo_id (lit "dataset") private true token] /\
    hub_repos (hub w1) !! (lit "dataset", repo_id) =
      Some (default (mkRepo private None)
              (hub_repos (hub w) !! (lit "dataset", repo_id))) /\
    (is_Some (hub_repos (hub w) !! (lit "dataset", repo_id)) -> hub w1 = hub w) /\
    (exists w2,
       ensure_repo repo_id private token w1 = (w2, Normal tt) /\
       hub w2 = hub w1 /\ stdout w2 = stdout w1) /\
    snd (create_repo repo_id (lit "dataset") private false token w1)
      = Raise (HfHubHTTPError 409).
Proof.
  unfold ensure_repo, create_repo. intros Htok. rewrite Htok. simpl negb.
  cbv iota.
  destruct (hub_repos (hub w) !! (lit "dataset", repo_id)) as [r|] eqn:Hr.
  - eexists. split; [reflexivity|]. simpl. rewrite Htok, Hr. simpl.
    repeat split; try done. by eexists.
  - eexists. split; [reflexivity|]. simpl. unfold token_ok in *. simpl.
    rewrite Htok, lookup_insert_eq. simpl.
    repeat split; try done. by eexists.
Qed.

(** On a hub without repositories: the first call creates the repository,
    the second finds it. *)
Lemma ensure_repo_idempotent_witness :
  exists w1,
    ensure_repo (lit "Thorsten-Voice/TV-24kHz-Full") false (lit "hf_secret") w0
      = (w1, Normal tt) /\
    net_calls w1 =
      net_calls w0
      ++ [CallCreateRepo (lit "Thorsten-Voice/TV-24kHz-Full") (lit "dataset")
            false true (lit "hf_secret")] /\
    hub_repos (hub w1) !! (lit "dataset", lit "Thorsten-Voice/TV-24kHz-Full") =
      Some (default (mkRepo false None)
              (hub_repos (hub w0)
                 !! (lit "dataset", lit "Thorsten-Voice/TV-24kHz-Full"))) /\
    (is_Some (hub_repos (hub w0)
                !! (lit "dataset", lit "Thorsten-Voice/TV-24kHz-Full")) ->
     hub w1 = hub w0) /\
    (exists w2,
       ensure_repo (lit "Thorsten-Voice/TV-24kHz-Full") false (lit "hf_secret") w1
         = (w2, Normal tt) /\
       hub w2 = hub w1 /\ stdout w2 = stdout w1) /\
    snd (create_repo (lit "Thorsten-Voice/TV-24kHz-Full") (lit "dataset") false
           false (lit "hf_secret") w1)
      = Raise (HfHubHTTPError 409).
Proof.
  apply (ensure_repo_idempotent (lit "Thorsten-Voice/TV-24kHz-Full") false
           (lit "hf_secret") w0).
  vm_compute. reflexivity.
Defined.

End PipelineProps.

(** ** Properties of the text-cleaning script *)

Module CleaningProps.
Import Py Cleaning Examples.

(** The loop over standard input keeps the last line it saw. *)
Lemma for_each_keeps_last (stdin : list str) (v : option str) (w : world) :
  for_each stdin (fun line _ => ret (Some line)) v w =
    (w, Normal (match last stdin with Some l => Some l | None => v end)).
Proof.
  revert v. induction stdin as [|line stdin IH]; intros v; [done|].
  simpl for_each. unfold ret at 1. rewrite IH.
  rewrite last_cons. by destruct (last stdin).
Qed.

(** C10.  On an input of at least one line the script calls the normaliser
    once, on the last line and for English, and writes what it returns;
    the lines before the last are read and dropped. *)
Theorem script_normalizes_last_line
    (Normalizer_normalize : normalizer_call -> option str)
    (stdin : list str) (last_line : str) (w : world) :
  last stdin = Some last_line ->
  script Normalizer_normalize stdin w =
    let call := mkCall (lit "en") (lit "cased") last_line true false in
    match Normalizer_normalize call with
    | Some normalized =>
        (mkWorld (stdout w ++ [normalized]) (normalizer_calls w ++ [call]),
         Normal tt)
    | None =>
        (mkWorld (stdout w) (normalizer_calls w ++ [call]),
         Raise NormalizerError)
    end.
Proof.
  intros Hlast. unfold script. unfold bind at 1.
  rewrite for_each_keeps_last, Hlast.
  unfold bind, read_var, ret, normalize_text, sys_stdout_write. cbv zeta.
  by destruct (Normalizer_normalize _).
Qed.

(** Three lines in, the last one out. *)
Lemma script_normalizes_last_line_witness :
  script bracket_normalizer
    [lit "eins" ++ nl; lit "zwei" ++ nl; lit "drei" ++ nl] cleaning_w0 =
    (mkWorld [lit "<drei" ++ nl ++ lit ">"]
       [mkCall (lit "en") (lit "cased") (lit "drei" ++ nl) true false],
     Normal tt).
Proof.
  apply (script_normalizes_last_line bracket_normalizer
           [lit "eins" ++ nl; lit "zwei" ++ nl; lit "drei" ++ nl]
           (lit "drei" ++ nl) cleaning_w0).
  reflexivity.
Defined.

End CleaningProps.

(** ** Further facts about strings and paths *)

Module MoreFacts.
Import Py Hf LJSpeech2HF Edge PyFacts LoadFacts.

Lemma lstrip_head (s : str) :
  match lstrip s with c :: _ => isspace c = false | [] => True end.
Proof.
  induction s as [|c s IH]; simpl; [done|].
  destruct (isspace c) eqn:Hc; [done|]. by simpl.
Qed.

Lemma lstrip_fixed (s : str) :
  match s with c :: _ => isspace c = false | [] => True end -> lstrip s = s.
Proof. destruct s as [|c s]; simpl; [done|]. by intros ->. Qed.

Lemma lstrip_lstrip (s : str) : lstrip (lstrip s) = lstrip s.
Proof. apply lstrip_fixed, lstrip_head. Qed.

Lemma rstrip_rstrip (s : str) : rstrip (rstrip s) = rstrip s.
Proof. unfold rstrip. by rewrite rev_involutive, lstrip_lstrip. Qed.

(** [rstrip] keeps a first character that is not white space. *)
Lemma rstrip_keeps_head (c : N) (s : str) :
  isspace c = false -> exists s', rstrip (c :: s) = c :: s'.
Proof.
  intros Hc. destruct (rstrip_suffix (c :: s)) as (ws & Hws & E).
  destruct (rstrip (c :: s)) as [|c' s'] eqn:Hr.
  - simpl in E. subst ws. simpl in Hws. by rewrite Hc in Hws.
  - injection E as <- _. by exists s'.
Qed.

(** [strip] leaves nothing more to strip. *)
Lemma strip_strip (s : str) : strip (strip s) = strip s.
Proof.
  unfold strip. pose proof (lstrip_head s) as Hh.
  destruct (lstrip s) as [|c t] eqn:Hl; [done|].
  destruct (rstrip_keeps_head c t Hh) as [s' Hs'].
  rewrite Hs'. simpl lstrip. rewrite Hh. rewrite <- Hs'. apply rstrip_rstrip.
Qed.

(** *** Fields hold no separator *)

Lemma split_fields_nosep (sep : N) (s : str) :
  Forall (nosep sep) (split sep s).
Proof.
  induction s as [|c s IH]; simpl.
  - by repeat constructor.
  - destruct (c =? sep)%N eqn:Hc.
    + by constructor.
    + destruct (split sep s) as [|f fs]; [by repeat constructor; unfold nosep; simpl; rewrite Hc|].
      inversion IH as [|?? Hf Hfs]; subst. constructor; [|done].
      unfold nosep in *. simpl. by rewrite Hc, Hf.
Qed.

Lemma strip_nosep (sep : N) (s : str) : nosep sep s -> nosep sep (strip s).
Proof.
  unfold nosep. intros H.
  destruct (strip_sandwich s) as (ws1 & ws2 & _ & _ & E).
  rewrite E in H. rewrite !forallb_app in H.
  by apply andb_true_iff in H as [_ [H _]%andb_true_iff].
Qed.

Lemma nosep_not_elem (sep : N) (s : str) : nosep sep s -> sep ∉ s.
Proof.
  unfold nosep. induction s as [|c s IH]; simpl; intros H.
  - apply not_elem_of_nil.
  - apply andb_true_iff in H as [Hc Hs]. apply not_elem_of_cons. split; [|auto].
    apply negb_true_iff, N.eqb_neq in Hc. congruence.
Qed.

(** *** The derived path in the two plain cases *)

Lemma os_path_join_absolute (root_dir wav_subdir file : str) :
  startswith_sep file = true ->
  os_path_join root_dir [wav_subdir; file] = file.
Proof. intros H. unfold os_path_join. simpl. by apply join_step_abs. Qed.

Lemma os_path_join_plain (root_dir wav_subdir file : str) :
  root_dir <> [] -> endswith_sep root_dir = false ->
  wav_subdir <> [] -> startswith_sep wav_subdir = false ->
  endswith_sep wav_subdir = false ->
  startswith_sep file = false ->
  os_path_join root_dir [wav_subdir; file] =
    root_dir ++ slash :: wav_subdir ++ slash :: file.
Proof.
  intros Hr Hre Hw Hws Hwe Hf. unfold os_path_join. simpl.
  rewrite (join_step_rel root_dir wav_subdir) by done.
  assert (truthy root_dir = true) as -> by by destruct root_dir.
  rewrite Hre. simpl.
  rewrite join_step_rel by done.
  assert (truthy (root_dir ++ slash :: wav_subdir) = true) as ->
    by by destruct root_dir.
  change (slash :: wav_subdir) with ([slash] ++ wav_subdir).
  rewrite app_assoc, endswith_sep_app, Hwe by done. simpl.
  by rewrite <- !app_assoc.
Qed.

(** *** More on the reading of a line *)

Section load.

Variable fs : filesystem.
Variables root_dir metadata_filename wav_subdir audio_ext : str.
Variable text_column_index : Z.

Abbreviation judge' := (judge fs root_dir wav_subdir audio_ext text_column_index).
Abbreviation line_record' :=
  (line_record fs root_dir wav_subdir audio_ext text_column_index).
Abbreviation line_diagnostics' :=
  (line_diagnostics fs root_dir wav_subdir audio_ext text_column_index).
Abbreviation records' :=
  (records fs root_dir wav_subdir audio_ext text_column_index).
Abbreviation diagnostics' :=
  (diagnostics fs root_dir wav_subdir audio_ext text_column_index).

Lemma judge_blank (line : str) : strip line = [] -> judge' line = Blank.
Proof. intros H. unfold judge. by rewrite H. Qed.

Lemma judge_blank_inv (line : str) : judge' line = Blank -> strip line = [].
Proof.
  unfold judge. destruct (strip line) eqn:Hs; [done|]. simpl.
  intros H. repeat case_match; done.
Qed.

(** A line is blank, or warned about, or recorded: one of the three. *)
Lemma line_accounting (line : str) :
  (length (option_list (line_record' line)) + length (line_diagnostics' line)
   + length (filter (fun l => strip l = []) [line]) = 1)%nat.
Proof.
  unfold line_record, line_diagnostics.
  destruct (judge' line) eqn:Hj.
  - apply judge_blank_inv in Hj. rewrite filter_cons_True by done. done.
  - rewrite filter_cons_False; [done|].
    intros Hb. by rewrite (judge_blank _ Hb) in Hj.
  - rewrite filter_cons_False; [done|].
    intros Hb. by rewrite (judge_blank _ Hb) in Hj.
  - rewrite filter_cons_False; [done|].
    intros Hb. by rewrite (judge_blank _ Hb) in Hj.
  - rewrite filter_cons_False; [done|].
    intros Hb. by rewrite (judge_blank _ Hb) in Hj.
Qed.

Lemma lines_accounting (lines : list str) :
  (length (records' lines) + length (diagnostics' lines)
   + length (filter (fun l => strip l = []) lines) = length lines)%nat.
Proof.
  induction lines as [|line lines IH]; [done|].
  pose proof (line_accounting line) as H1.
  rewrite records_cons, diagnostics_cons, length_app.
  change (line :: lines) with ([line] ++ lines).
  rewrite filter_app, !length_app.
  destruct (line_record' line); simpl in *; lia.
Qed.

(** The record of a line, read off its trimmed fields alone. *)
Lemma line_record_trimmed (line : str) :
  line_record' line =
    let fields := strip <$> split bar line in
    if (length fields <? 2)%nat then None
    else
      match head fields, resolve_index (length fields) text_column_index with
      | Some id, Some k =>
          match fields !! k with
          | Some text =>
              if isfile fs (os_path_join root_dir [wav_subdir; id ++ audio_ext])
              then Some (mk_record id text
                           (os_path_join root_dir [wav_subdir; id ++ audio_ext]))
              else None
          | None => None
          end
      | _, _ => None
      end.
Proof.
  cbv zeta. rewrite length_fmap.
  assert (head (strip <$> split bar line) = strip <$> head (split bar line))
    as -> by by destruct (split bar line).
  unfold line_record, judge, audio_path_of.
  destruct (Nat.ltb_spec (length (split bar line)) 2) as [Hlt|Hge].
  { by destruct (negb _). }
  destruct (strip line) eqn:Hs.
  { rewrite (split_blank bar line isspace_bar Hs) in Hge. simpl in Hge. lia. }
  simpl negb. cbv iota.
  destruct (head (split bar line)) as [f0|]; simpl; [|done].
  destruct (resolve_index _ _) as [k|]; [|done].
  rewrite list_lookup_fmap.
  destruct (split bar line !! k) as [ft|]; simpl; [|done].
  by destruct (isfile fs _).
Qed.

(** [load_ljs_metadata] on a file one of whose lines is well formed and
    has its audio file. *)
Lemma load_accepts_line (l1 l2 : list str) (line f0 ftext : str) (k : nat)
    (w : world) :
  isfile fs (os_path_join root_dir [metadata_filename]) = true ->
  file_lines fs (os_path_join root_dir [metadata_filename]) = l1 ++ line :: l2 ->
  (2 <= length (split bar line))%nat ->
  head (split bar line) = Some f0 ->
  resolve_index (length (split bar line)) text_column_index = Some k ->
  split bar line !! k = Some ftext ->
  isfile fs (os_path_join root_dir [wav_subdir; strip f0 ++ audio_ext]) = true ->
  load_ljs_metadata fs root_dir metadata_filename wav_subdir audio_ext
      text_column_index w =
    (emit w (diagnostics' (l1 ++ line :: l2)),
     Normal (records' l1
             ++ [mk_record (strip f0) (strip ftext)
                   (os_path_join root_dir [wav_subdir; strip f0 ++ audio_ext])]
             ++ records' l2)).
Proof.
  intros Hmeta Hlines Hlen Hhd Hk Hft Hf.
  pose proof (load_ljs_metadata_judge fs root_dir metadata_filename wav_subdir
                audio_ext text_column_index w) as H.
  cbv zeta in H. rewrite Hmeta, Hlines in H. rewrite H. f_equal.
  rewrite records_app, records_cons. unfold line_record.
  rewrite (judge_accepted fs root_dir wav_subdir audio_ext text_column_index
             line f0 ftext k) by done.
  by destruct (records' l1).
Qed.

(** The records returned are built by [mk_record] from an id. *)
Lemma record_shape (w w' : world) (data : list dict) (d : dict) :
  load_ljs_metadata fs root_dir metadata_filename wav_subdir audio_ext
      text_column_index w = (w', Normal data) ->
  d ∈ data ->
  exists id text,
    d = mk_record id text (os_path_join root_dir [wav_subdir; id ++ audio_ext]).
Proof.
  intros Hload Hd.
  pose proof (load_ljs_metadata_judge fs root_dir metadata_filename wav_subdir
                audio_ext text_column_index w) as H.
  cbv zeta in H. rewrite Hload in H.
  destruct (isfile fs (os_path_join root_dir [metadata_filename])); [|done].
  assert (data = records' (file_lines fs (os_path_join root_dir [metadata_filename])))
    as ->.
  { destruct (records' _); by simplify_eq. }
  unfold records in Hd. apply list_elem_of_omap in Hd as (line & Hline & Hrec).
  unfold line_record in Hrec.
  destruct (judge' line) eqn:Hj; try done. injection Hrec as ->.
  apply judge_accepted_inv in Hj as (f0 & ft & k & _ & _ & _ & _ & _ & ->).
  by eexists _, _.
Qed.

End load.

End MoreFacts.

(** ** Further properties of [load_ljs_metadata] *)

Module LoadMore.
Import Py Hf LJSpeech2HF Edge PyFacts LoadFacts MoreFacts Examples.

(** X1.  Without a regular file at [join(root, metadata_filename)] the
    function raises [FileNotFoundError] naming that path; nothing is read
    and nothing is printed. *)
Theorem load_missing_metadata_file
    (fs : filesystem) (root_dir metadata_filename wav_subdir audio_ext : str)
    (text_column_index : Z) (w : world) :
  isfile fs (os_path_join root_dir [metadata_filename]) = false ->
  load_ljs_metadata fs root_dir metadata_filename wav_subdir audio_ext
      text_column_index w =
    (w, Raise (FileNotFoundError
                 (lit "metadata file not found: "
                  ++ os_path_join root_dir [metadata_filename]))).
Proof.
  intros H.
  pose proof (load_ljs_metadata_judge fs root_dir metadata_filename wav_subdir
                audio_ext text_column_index w) as E.
  cbv zeta in E. by rewrite H in E.
Qed.

Lemma load_missing_metadata_file_witness :
  load_ljs_metadata corpus_fs (lit "corpus") (lit "absent.csv") (lit "wavs")
      (lit ".wav") (-1) w0 =
    (w0, Raise (FileNotFoundError
                  (lit "metadata file not found: "
                   ++ os_path_join (lit "corpus") [lit "absent.csv"]))).
Proof.
  apply (load_missing_metadata_file corpus_fs (lit "corpus") (lit "absent.csv")
           (lit "wavs") (lit ".wav") (-1) w0).
  vm_compute. reflexivity.
Defined.

(** X2.  The loop accounts for every line: each line is blank, or gives
    one warning, or gives one record.  The records, the warnings printed
    and the blank lines add up to the lines of the file. *)
Theorem load_lines_accounting
    (fs : filesystem) (root_dir wav_subdir audio_ext : str)
    (text_column_index : Z) (lines : list str) (w : world) :
  exists (warnings : list out) (data : list dict),
    load_lines fs root_dir wav_subdir audio_ext text_column_index lines w
      = (emit w warnings, Normal data) /\
    Forall (fun o => exists s, o = OutStr (lit "[WARN] " ++ s)) warnings /\
    (length data + length warnings
     + length (filter (fun l => strip l = []) lines) = length lines)%nat.
Proof.
  eexists _, _. split; [apply load_lines_judge|]. split.
  - apply diagnostics_warn.
  - apply lines_accounting.
Qed.

(** X3.  A blank line changes nothing, wherever it stands: the loop gives
    the same records and prints the same with it as without it. *)
Theorem blank_line_transparent
    (fs : filesystem) (root_dir wav_subdir audio_ext : str)
    (text_column_index : Z) (l1 l2 : list str) (line : str) (w : world) :
  strip line = [] ->
  load_lines fs root_dir wav_subdir audio_ext text_column_index
      (l1 ++ line :: l2) w =
    load_lines fs root_dir wav_subdir audio_ext text_column_index
      (l1 ++ l2) w.
Proof.
  intros Hb. rewrite !load_lines_judge.
  rewrite !records_app, !diagnostics_app, records_cons, diagnostics_cons.
  unfold line_record, line_diagnostics.
  by rewrite (judge_blank fs root_dir wav_subdir audio_ext text_column_index
                line Hb).
Qed.

Lemma blank_line_transparent_witness :
  load_lines corpus_fs (lit "corpus") (lit "wavs") (lit ".wav") (-1)
      ([lit "a|one" ++ nl] ++ (lit "  " ++ nl) :: [lit "onlyonefield" ++ nl]) w0 =
    load_lines corpus_fs (lit "corpus") (lit "wavs") (lit ".wav") (-1)
      ([lit "a|one" ++ nl] ++ [lit "onlyonefield" ++ nl]) w0.
Proof.
  apply (blank_line_transparent corpus_fs (lit "corpus") (lit "wavs")
           (lit ".wav") (-1) [lit "a|one" ++ nl] [lit "onlyonefield" ++ nl]
           (lit "  " ++ nl) w0).
  vm_compute. reflexivity.
Defined.

(** X4.  White space around a line, such as its line terminator, plays no
    part: the round of the loop on the padded line is the round on the
    line, warnings included. *)
Theorem load_line_padding
    (fs : filesystem) (root_dir wav_subdir audio_ext : str)
    (text_column_index : Z) (ws1 ws2 line : str) (data : list dict)
    (w : world) :
  forallb isspace ws1 = true -> forallb isspace ws2 = true ->
  load_line fs root_dir wav_subdir audio_ext text_column_index
      (ws1 ++ line ++ ws2) data w =
    load_line fs root_dir wav_subdir audio_ext text_column_index line data w.
Proof.
  intros H1 H2. unfold load_line.
  by rewrite strip_spaces_app, strip_app_spaces.
Qed.

(** A line ended by carriage return and line feed. *)
Lemma load_line_padding_witness :
  load_line corpus_fs (lit "corpus") (lit "wavs") (lit ".wav") (-1)
      ([] ++ lit "a|one" ++ [13%N; 10%N]) [] w0 =
    load_line corpus_fs (lit "corpus") (lit "wavs") (lit ".wav") (-1)
      (lit "a|one") [] w0.
Proof.
  apply (load_line_padding corpus_fs (lit "corpus") (lit "wavs") (lit ".wav")
           (-1) [] [13%N; 10%N] (lit "a|one") [] w0); reflexivity.
Defined.

(** X5.  Only the trimmed fields of a line count for its record: two lines
    whose fields agree after trimming lead the loop to the same outcome,
    the same record added or none. *)
Theorem same_trimmed_fields_same_record
    (fs : filesystem) (root_dir wav_subdir audio_ext : str)
    (text_column_index : Z) (line1 line2 : str) (data : list dict)
    (w1 w2 : world) :
  strip <$> split bar line1 = strip <$> split bar line2 ->
  snd (load_line fs root_dir wav_subdir audio_ext text_column_index
         line1 data w1) =
  snd (load_line fs root_dir wav_subdir audio_ext text_column_index
         line2 data w2).
Proof.
  intros H. rewrite !load_line_judge. simpl.
  by rewrite !line_record_trimmed, H.
Qed.

Lemma same_trimmed_fields_same_record_witness :
  snd (load_line corpus_fs (lit "corpus") (lit "wavs") (lit ".wav") (-1)
         (lit "a|one") [] w0) =
  snd (load_line corpus_fs (lit "corpus") (lit "wavs") (lit ".wav") (-1)
         (lit "  a  |   one " ++ nl) [] w0).
Proof.
  apply (same_trimmed_fields_same_record corpus_fs (lit "corpus") (lit "wavs")
           (lit ".wav") (-1) (lit "a|one") (lit "  a  |   one " ++ nl) [] w0 w0).
  vm_compute. reflexivity.
Defined.

(** X6.  Every record returned has exactly the shape the loop builds: an
    id and a text that are trimmed and hold no separator, and the audio
    path derived from the id, which is an existing file. *)
Theorem record_well_formed
    (fs : filesystem) (root_dir metadata_filename wav_subdir audio_ext : str)
    (text_column_index : Z) (w w' : world) (data : list dict) (d : dict) :
  load_ljs_metadata fs root_dir metadata_filename wav_subdir audio_ext
      text_column_index w = (w', Normal data) ->
  d ∈ data ->
  exists id text,
    d = mk_record id text (os_path_join root_dir [wav_subdir; id ++ audio_ext]) /\
    strip id = id /\ strip text = text /\
    (bar ∉ id) /\ (bar ∉ text) /\
    isfile fs (os_path_join root_dir [wav_subdir; id ++ audio_ext]) = true.
Proof.
  intros Hload Hd.
  pose proof (load_ljs_metadata_judge fs root_dir metadata_filename wav_subdir
                audio_ext text_column_index w) as H.
  cbv zeta in H. rewrite Hload in H.
  destruct (isfile fs (os_path_join root_dir [metadata_filename])); [|done].
  assert (data = records fs root_dir wav_subdir audio_ext text_column_index
                   (file_lines fs (os_path_join root_dir [metadata_filename])))
    as ->.
  { destruct (records _ _ _ _ _ _); by simplify_eq. }
  unfold records in Hd. apply list_elem_of_omap in Hd as (line & Hline & Hrec).
  unfold line_record in Hrec.
  destruct (judge _ _ _ _ _ line) eqn:Hj; try done. injection Hrec as ->.
  apply judge_accepted_inv in Hj as (f0 & ft & k & _ & Hhd & _ & Hft & Hf & ->).
  pose proof (split_fields_nosep bar line) as Hns.
  assert (Hf0 : nosep bar f0).
  { eapply (proj1 (Forall_forall _ _) Hns). apply head_Some_elem_of, Hhd. }
  assert (Hft' : nosep bar ft).
  { eapply (proj1 (Forall_forall _ _) Hns). by eapply list_elem_of_lookup_2. }
  exists (strip f0), (strip ft). repeat split; try done.
  - apply strip_strip.
  - apply strip_strip.
  - by apply nosep_not_elem, strip_nosep.
  - by apply nosep_not_elem, strip_nosep.
Qed.

Lemma record_well_formed_witness :
  exists id text,
    mk_record (lit "a") [] (lit "corpus/wavs/a.wav") =
      mk_record id text (os_path_join (lit "corpus") [lit "wavs"; id ++ lit ".wav"]) /\
    strip id = id /\ strip text = text /\
    (bar ∉ id) /\ (bar ∉ text) /\
    isfile corpus_fs (os_path_join (lit "corpus") [lit "wavs"; id ++ lit ".wav"])
      = true.
Proof.
  apply (record_well_formed corpus_fs (lit "corpus") (lit "trailing.csv")
           (lit "wavs") (lit ".wav") (-1) w0 w0
           [mk_record (lit "a") [] (lit "corpus/wavs/a.wav")]).
  - vm_compute. reflexivity.
  - apply list_elem_of_singleton. reflexivity.
Defined.

(** X7.  An id that begins with [/] leaves the corpus: for a line whose
    first field, trimmed, starts with a slash, the audio file looked for
    and recorded is the id followed by the extension, whatever the root
    directory and the audio subdirectory. *)
Theorem absolute_id_escapes_root
    (fs : filesystem) (root_dir metadata_filename wav_subdir audio_ext : str)
    (text_column_index : Z) (l1 l2 : list str) (line f0 ftext rest : str)
    (k : nat) (w : world) :
  isfile fs (os_path_join root_dir [metadata_filename]) = true ->
  file_lines fs (os_path_join root_dir [metadata_filename]) = l1 ++ line :: l2 ->
  (2 <= length (split bar line))%nat ->
  head (split bar line) = Some f0 ->
  strip f0 = slash :: rest ->
  resolve_index (length (split bar line)) text_column_index = Some k ->
  split bar line !! k = Some ftext ->
  isfile fs (strip f0 ++ audio_ext) = true ->
  exists w',
    load_ljs_metadata fs root_dir metadata_filename wav_subdir audio_ext
        text_column_index w =
      (w', Normal
             (records fs root_dir wav_subdir audio_ext text_column_index l1
              ++ [mk_record (strip f0) (strip ftext) (strip f0 ++ audio_ext)]
              ++ records fs root_dir wav_subdir audio_ext text_column_index l2)).
Proof.
  intros Hmeta Hlines Hlen Hhd Habs Hk Hft Hf.
  assert (Hp : os_path_join root_dir [wav_subdir; strip f0 ++ audio_ext]
               = strip f0 ++ audio_ext).
  { apply os_path_join_absolute. rewrite Habs. reflexivity. }
  eexists.
  rewrite (load_accepts_line fs root_dir metadata_filename wav_subdir audio_ext
             text_column_index l1 l2 line f0 ftext k w); try done.
  - by rewrite Hp.
  - by rewrite Hp.
Qed.

Lemma absolute_id_escapes_root_witness :
  exists w',
    load_ljs_metadata abs_fs (lit "corpus") (lit "metadata.csv") (lit "wavs")
        (lit ".wav") (-1) w0 =
      (w', Normal
             (records abs_fs (lit "corpus") (lit "wavs") (lit ".wav") (-1) []
              ++ [mk_record (strip (lit "/data/x")) (strip (lit "hello" ++ nl))
                    (strip (lit "/data/x") ++ lit ".wav")]
              ++ records abs_fs (lit "corpus") (lit "wavs") (lit ".wav") (-1) [])).
Proof.
  apply (absolute_id_escapes_root abs_fs (lit "corpus") (lit "metadata.csv")
           (lit "wavs") (lit ".wav") (-1) [] [] (lit "/data/x|hello" ++ nl)
           (lit "/data/x") (lit "hello" ++ nl) (lit "data/x") 1%nat w0);
    vm_compute; (reflexivity || lia).
Defined.

(** X8.  In the plain layout, with a root directory and a subdirectory
    that are not empty and do not end in a slash, a subdirectory and an id
    that do not begin with one, the audio path of a record is the text
    [root/wavSubdir/id+ext]. *)
Theorem plain_layout_path
    (fs : filesystem) (root_dir metadata_filename wav_subdir audio_ext : str)
    (text_column_index : Z) (w w' : world) (data : list dict) (d : dict) :
  root_dir <> [] -> endswith_sep root_dir = false ->
  wav_subdir <> [] -> startswith_sep wav_subdir = false ->
  endswith_sep wav_subdir = false ->
  load_ljs_metadata fs root_dir metadata_filename wav_subdir audio_ext
      text_column_index w = (w', Normal data) ->
  d ∈ data ->
  exists id,
    d !! "id" = Some id /\
    (startswith_sep (id ++ audio_ext) = false ->
     d !! "audio_path" =
       Some (root_dir ++ slash :: wav_subdir ++ slash :: id ++ audio_ext)).
Proof.
  intros Hr Hre Hw Hws Hwe Hload Hd.
  destruct (record_shape fs root_dir metadata_filename wav_subdir audio_ext
              text_column_index w w' data d Hload Hd) as (id & text & ->).
  exists id. split; [done|]. intros Hid.
  rewrite os_path_join_plain by done. done.
Qed.

Lemma plain_layout_path_witness :
  exists id,
    mk_record (lit "a") [] (lit "corpus/wavs/a.wav") !! "id" = Some id /\
    (startswith_sep (id ++ lit ".wav") = false ->
     mk_record (lit "a") [] (lit "corpus/wavs/a.wav") !! "audio_path" =
       Some (lit "corpus" ++ slash :: lit "wavs" ++ slash :: id ++ lit ".wav")).
Proof.
  apply (plain_layout_path corpus_fs (lit "corpus") (lit "trailing.csv")
           (lit "wavs") (lit ".wav") (-1) w0 w0
           [mk_record (lit "a") [] (lit "corpus/wavs/a.wav")]);
    try (vm_compute; (reflexivity || discriminate)).
  apply list_elem_of_singleton. reflexivity.
Defined.

(** X9.  The loop works line by line: on two lists of lines one after the
    other it gives the records of the first followed by the records of the
    second, having printed the warnings of the first and then those of the
    second.  Equal lines give equal records; none is dropped as a
    duplicate. *)
Theorem load_lines_app
    (fs : filesystem) (root_dir wav_subdir audio_ext : str)
    (text_column_index : Z) (l1 l2 : list str) (w : world) :
  exists w1 w2 d1 d2,
    load_lines fs root_dir wav_subdir audio_ext text_column_index l1 w
      = (w1, Normal d1) /\
    load_lines fs root_dir wav_subdir audio_ext text_column_index l2 w1
      = (w2, Normal d2) /\
    load_lines fs root_dir wav_subdir audio_ext text_column_index (l1 ++ l2) w
      = (w2, Normal (d1 ++ d2)).
Proof.
  eexists _, _, _, _. rewrite !load_lines_judge. repeat split.
  by rewrite emit_emit, records_app, diagnostics_app.
Qed.

(** X10.  With the column index [0] the text of every record is its id. *)
Theorem column_zero_text_is_id
    (fs : filesystem) (root_dir metadata_filename wav_subdir audio_ext : str)
    (w w' : world) (data : list dict) (d : dict) :
  load_ljs_metadata fs root_dir metadata_filename wav_subdir audio_ext 0 w
    = (w', Normal data) ->
  d ∈ data ->
  is_Some (d !! "id") /\ d !! "text" = d !! "id".
Proof.
  intros Hload Hd.
  pose proof (load_ljs_metadata_judge fs root_dir metadata_filename wav_subdir
                audio_ext 0 w) as H.
  cbv zeta in H. rewrite Hload in H.
  destruct (isfile fs (os_path_join root_dir [metadata_filename])); [|done].
  assert (data = records fs root_dir wav_subdir audio_ext 0
                   (file_lines fs (os_path_join root_dir [metadata_filename])))
    as ->.
  { destruct (records _ _ _ _ _ _); by simplify_eq. }
  unfold records in Hd. apply list_elem_of_omap in Hd as (line & Hline & Hrec).
  unfold line_record in Hrec.
  destruct (judge _ _ _ _ _ line) eqn:Hj; try done. injection Hrec as ->.
  apply judge_accepted_inv in Hj as (f0 & ft & k & Hlen & Hhd & Hk & Hft & _ & ->).
  rewrite resolve_index_first in Hk by lia. injection Hk as <-.
  rewrite <- head_lookup, Hhd in Hft. injection Hft as <-.
  split; [by eexists|done].
Qed.

Lemma column_zero_text_is_id_witness :
  is_Some (mk_record (lit "a") (lit "a") (lit "corpus/wavs/a.wav") !! "id") /\
  mk_record (lit "a") (lit "a") (lit "corpus/wavs/a.wav") !! "text" =
    mk_record (lit "a") (lit "a") (lit "corpus/wavs/a.wav") !! "id".
Proof.
  apply (column_zero_text_is_id corpus_fs (lit "corpus") (lit "trailing.csv")
           (lit "wavs") (lit ".wav") w0 w0
           [mk_record (lit "a") (lit "a") (lit "corpus/wavs/a.wav")]).
  - vm_compute. reflexivity.
  - apply list_elem_of_singleton. reflexivity.
Defined.

(** X11.  A column index that resolves on no line of the file empties the
    dataset: every line that is not blank is warned about, no record is
    made, and the function raises the error of the empty dataset. *)
Theorem unresolvable_index_no_rows
    (fs : filesystem) (root_dir metadata_filename wav_subdir audio_ext : str)
    (text_column_index : Z) (w : world) :
  isfile fs (os_path_join root_dir [metadata_filename]) = true ->
  Forall (fun line =>
            resolve_index (length (split bar line)) text_column_index = None)
    (file_lines fs (os_path_join root_dir [metadata_filename])) ->
  exists warnings,
    load_ljs_metadata fs root_dir metadata_filename wav_subdir audio_ext
        text_column_index w =
      (emit w warnings,
       Raise (RuntimeError (lit "No valid rows found in metadata file."))) /\
    (length warnings
     + length (filter (fun l => strip l = [])
                 (file_lines fs (os_path_join root_dir [metadata_filename])))
     = length (file_lines fs (os_path_join root_dir [metadata_filename])))%nat.
Proof.
  intros Hmeta Hall.
  pose proof (load_ljs_metadata_judge fs root_dir metadata_filename wav_subdir
                audio_ext text_column_index w) as H.
  cbv zeta in H. rewrite Hmeta in H.
  set (lines := file_lines fs (os_path_join root_dir [metadata_filename])) in *.
  assert (Hrec : records fs root_dir wav_subdir audio_ext text_column_index lines
                 = []).
  { clearbody lines. clear H. induction Hall as [|line ls Hline _ IH]; [done|].
    rewrite records_cons, IH.
    destruct (line_record _ _ _ _ _ line) as [d|] eqn:Hd; [|done].
    unfold line_record in Hd.
    destruct (judge _ _ _ _ _ line) eqn:Hj; try done.
    apply judge_accepted_inv in Hj as (? & ? & ? & _ & _ & Hk & _). congruence. }
  eexists. split.
  - rewrite H, Hrec. reflexivity.
  - pose proof (lines_accounting fs root_dir wav_subdir audio_ext
                  text_column_index lines) as Hacc.
    rewrite Hrec in Hacc. simpl in Hacc. exact Hacc.
Qed.

Lemma unresolvable_index_no_rows_witness :
  exists warnings,
    load_ljs_metadata corpus_fs (lit "corpus") (lit "metadata.csv") (lit "wavs")
        (lit ".wav") 5 w0 =
      (emit w0 warnings,
       Raise (RuntimeError (lit "No valid rows found in metadata file."))) /\
    (length warnings
     + length (filter (fun l => strip l = [])
                 (file_lines corpus_fs (os_path_join (lit "corpus") [lit "metadata.csv"])))
     = length (file_lines corpus_fs (os_path_join (lit "corpus") [lit "metadata.csv"])))%nat.
Proof.
  apply (unresolvable_index_no_rows corpus_fs (lit "corpus")
           (lit "metadata.csv") (lit "wavs") (lit ".wav") 5 w0).
  - vm_compute. reflexivity.
  - vm_compute. repeat constructor.
Defined.

End LoadMore.

(** ** Further properties of the pipeline *)

Module PipelineMore.
Import Py Hf LJSpeech2HF Edge PyFacts LoadFacts MoreFacts PipelineProps Examples.

(** A [for] loop over two lists in a row. *)
Lemma for_each_app {W A S} (l1 l2 : list A) (body : A -> S -> M W S) (s : S)
    (w : W) :
  for_each (l1 ++ l2) body s w =
    match for_each l1 body s w with
    | (w', Normal s') => for_each l2 body s' w'
    | (w', Raise e) => (w', Raise e)
    | (w', Continue) => (w', Continue)
    end.
Proof.
  revert s w. induction l1 as [|x l1 IH]; intros s w; [done|].
  simpl. destruct (body x s w) as [w' [s'| |]]; by rewrite ?IH.
Qed.

Lemma first_missing_key_None (ex : dict) :
  first_missing_key ex = None -> is_Some (dataset_row ex).
Proof.
  unfold first_missing_key, dataset_row.
  destruct (ex !! "id"); [|done].
  destruct (ex !! "text"); [|done].
  destruct (ex !! "audio_path"); [|done]. by eexists.
Qed.

Lemma dataset_rows_exist (examples : list dict) :
  Forall (fun ex => is_Some (dataset_row ex)) examples ->
  Forall2 (fun ex row => dataset_row ex = Some row) examples
    (omap dataset_row examples).
Proof.
  induction 1 as [|ex exs [row Hrow] _ IH]; [constructor|].
  simpl. rewrite Hrow. by constructor.
Qed.

(** X12.  A record that lacks a key stops the build: when the records
    before it are complete, [build_hf_audio_dataset] raises [KeyError] for
    the first of [id], [text], [audio_path] that the record lacks, and
    the world is as it was. *)
Theorem build_missing_key
    (good rest : list dict) (bad : dict) (k : string) (sampling_rate : Z)
    (w : world) :
  Forall (fun ex => first_missing_key ex = None) good ->
  first_missing_key bad = Some k ->
  build_hf_audio_dataset (good ++ bad :: rest) sampling_rate w
    = (w, Raise (KeyError k)).
Proof.
  intros Hgood Hbad. unfold build_hf_audio_dataset, bind.
  rewrite for_each_app.
  rewrite (for_each_build_row good [] (omap dataset_row good) w); cycle 1.
  { apply dataset_rows_exist. eapply Forall_impl; [done|].
    apply first_missing_key_None. }
  simpl for_each.
  assert (build_row bad (omap dataset_row good) w = (w, Raise (KeyError k)))
    as ->; [|done].
  unfold first_missing_key in Hbad.
  unfold build_row, bind, dict_getitem, ret, raise.
  destruct (bad !! "id"); [|by injection Hbad as <-].
  destruct (bad !! "text"); [|by injection Hbad as <-].
  destruct (bad !! "audio_path"); [done|by injection Hbad as <-].
Qed.

Lemma build_missing_key_witness :
  build_hf_audio_dataset
    ([mk_record (lit "a") (lit "one") (lit "corpus/wavs/a.wav")]
     ++ (<["id" := lit "b"]> (<["audio_path" := lit "corpus/wavs/b.wav"]> ∅))
     :: [mk_record (lit "c") (lit "three") (lit "corpus/wavs/c.wav")])
    24000 w0
    = (w0, Raise (KeyError "text")).
Proof.
  apply (build_missing_key
           [mk_record (lit "a") (lit "one") (lit "corpus/wavs/a.wav")]
           [mk_record (lit "c") (lit "three") (lit "corpus/wavs/c.wav")]
           (<["id" := lit "b"]> (<["audio_path" := lit "corpus/wavs/b.wav"]> ∅))
           "text" 24000 w0).
  - repeat constructor.
  - vm_compute. reflexivity.
Defined.

Lemma dataset_row_mk_record (id text audio_path : str) :
  dataset_row (mk_record id text audio_path) =
    Some (<["id" := id]> (<["text" := text]> (<["audio" := audio_path]> ∅))).
Proof. reflexivity. Qed.

(** The records that [load_ljs_metadata] returns all have a row. *)
Lemma loaded_rows
    (fs : filesystem) (root_dir metadata_filename wav_subdir audio_ext : str)
    (text_column_index : Z) (w w' : world) (data : list dict) :
  load_ljs_metadata fs root_dir metadata_filename wav_subdir audio_ext
      text_column_index w = (w', Normal data) ->
  Forall (fun d => exists id text audio_path,
            d = mk_record id text audio_path) data.
Proof.
  intros Hload. apply Forall_forall. intros d Hd.
  destruct (record_shape fs root_dir metadata_filename wav_subdir audio_ext
              text_column_index w w' data d Hload Hd) as (id & text & ->).
  by eexists _, _, _.
Qed.

(** X13.  What [load_ljs_metadata] returns, [build_hf_audio_dataset]
    accepts: on the records of a successful load the build raises
    nothing and gives one row for each record, in order, with the id and
    the text of the record and its audio path under the key [audio]. *)
Theorem load_then_build
    (fs : filesystem) (root_dir metadata_filename wav_subdir audio_ext : str)
    (text_column_index sampling_rate : Z) (w w' w2 : world)
    (data : list dict) :
  load_ljs_metadata fs root_dir metadata_filename wav_subdir audio_ext
      text_column_index w = (w', Normal data) ->
  exists rows,
    build_hf_audio_dataset data sampling_rate w2 =
      (w2, Normal (mkDataset (schema sampling_rate) rows)) /\
    Forall2 (fun d row => exists id text audio_path,
               d = mk_record id text audio_path /\
               row = <["id" := id]>
                       (<["text" := text]> (<["audio" := audio_path]> ∅)))
      data rows.
Proof.
  intros Hload. apply loaded_rows in Hload.
  exists (omap dataset_row data). split.
  - unfold build_hf_audio_dataset, bind.
    rewrite (for_each_build_row data [] (omap dataset_row data) w2); [done|].
    apply dataset_rows_exist. eapply Forall_impl; [done|].
    intros d (i & t & p & ->). by eexists.
  - induction Hload as [|d ds (i & t & p & ->) _ IH]; [constructor|].
    simpl. rewrite dataset_row_mk_record. constructor; [|done].
    by eexists _, _, _.
Qed.

Lemma load_then_build_witness :
  exists rows,
    build_hf_audio_dataset [mk_record (lit "a") [] (lit "corpus/wavs/a.wav")]
        24000 w0 =
      (w0, Normal (mkDataset (schema 24000) rows)) /\
    Forall2 (fun d row => exists id text audio_path,
               d = mk_record id text audio_path /\
               row = <["id" := id]>
                       (<["text" := text]> (<["audio" := audio_path]> ∅)))
      [mk_record (lit "a") [] (lit "corpus/wavs/a.wav")] rows.
Proof.
  apply (load_then_build corpus_fs (lit "corpus") (lit "trailing.csv")
           (lit "wavs") (lit ".wav") (-1) 24000 w0 w0 w0
           [mk_record (lit "a") [] (lit "corpus/wavs/a.wav")]).
  vm_compute. reflexivity.
Defined.

(** X14.  Without the metadata file [main] ends with [FileNotFoundError]
    after its first line of output: no warning, no Dataset, no call to the
    hub. *)
Theorem main_missing_metadata_file
    (env : gmap string str) (fs : filesystem) (args : Args) (w : world) :
  isfile fs (os_path_join (args_root_dir args) [args_metadata_filename args])
    = false ->
  main env fs args w =
    (emit w [OutStr (lit "[INFO] Loading metadata...")],
     Raise (FileNotFoundError
              (lit "metadata file not found: "
               ++ os_path_join (args_root_dir args)
                    [args_metadata_filename args]))).
Proof.
  intros H. unfold main. unfold bind at 1. unfold print at 1.
  unfold bind at 1.
  pose proof (load_ljs_metadata_judge fs (args_root_dir args)
                (args_metadata_filename args) (args_wav_subdir args)
                (args_audio_ext args) (args_text_column_index args)) as E.
  cbv zeta in E. rewrite E, H. done.
Qed.

Lemma main_missing_metadata_file_witness :
  main env_token corpus_fs (args0 "absent.csv") w0 =
    (emit w0 [OutStr (lit "[INFO] Loading metadata...")],
     Raise (FileNotFoundError
              (lit "metadata file not found: "
               ++ os_path_join (args_root_dir (args0 "absent.csv"))
                    [args_metadata_filename (args0 "absent.csv")]))).
Proof.
  apply (main_missing_metadata_file env_token corpus_fs (args0 "absent.csv") w0).
  vm_compute. reflexivity.
Defined.

Section main.

Variable env : gmap string str.
Variable fs : filesystem.
Variable args : Args.

Abbreviation survivors :=
  (records fs (args_root_dir args) (args_wav_subdir args) (args_audio_ext args)
     (args_text_column_index args)
     (file_lines fs (os_path_join (args_root_dir args)
                       [args_metadata_filename args]))).
Abbreviation warnings :=
  (diagnostics fs (args_root_dir args) (args_wav_subdir args)
     (args_audio_ext args) (args_text_column_index args)
     (file_lines fs (os_path_join (args_root_dir args)
                       [args_metadata_filename args]))).
Abbreviation built :=
  (mkDataset (schema (args_sampling_rate args)) (omap dataset_row survivors)).
Abbreviation before_push :=
  ([OutStr (lit "[INFO] Loading metadata...")]
   ++ warnings
   ++ [ OutStr (lit "[INFO] Found "
                ++ str_of_int (Z.of_nat (length survivors))
                ++ lit " valid examples");
        OutStr (lit "[INFO] Building HF audio dataset...");
        OutDataset built;
        OutStr (lit "[INFO] Pushing dataset to hub as " ++ args_hf_repo args
                ++ lit " ...") ]).

(** [main] up to the push, when some record survives. *)
Lemma main_until_push (w : world) :
  isfile fs (os_path_join (args_root_dir args) [args_metadata_filename args])
    = true ->
  survivors <> [] ->
  main env fs args w =
    bind (push_dataset_to_hub env built (args_hf_repo args) (args_hf_token args)
            (args_hf_private args))
         (fun _ => print (lit "[INFO] Done. Dataset uploaded."))
         (emit w before_push).
Proof.
  intros Hmeta Hsome. unfold main.
  unfold bind at 1. unfold print at 1. unfold bind at 1.
  pose proof (load_ljs_metadata_judge fs (args_root_dir args)
                (args_metadata_filename args) (args_wav_subdir args)
                (args_audio_ext args) (args_text_column_index args)) as E.
  cbv zeta in E. rewrite E, Hmeta. clear E.
  assert (Hrows : Forall (fun ex => is_Some (dataset_row ex)) survivors).
  { apply Forall_forall. intros d Hd. unfold records in Hd.
    apply list_elem_of_omap in Hd as (line & _ & Hrec).
    unfold line_record in Hrec.
    destruct (judge _ _ _ _ _ line) eqn:Hj; try done. injection Hrec as ->.
    apply judge_accepted_inv in Hj as (? & ? & ? & _ & _ & _ & _ & _ & ->).
    by eexists. }
  destruct survivors as [|d ds] eqn:Hs; [done|]. rewrite <- Hs in *.
  unfold bind at 1. unfold print at 1.
  unfold bind at 1. unfold print at 1.
  unfold bind at 1. unfold build_hf_audio_dataset at 1. unfold bind at 1.
  rewrite (for_each_build_row survivors [] (omap dataset_row survivors))
    by by apply dataset_rows_exist.
  unfold ret at 1. unfold Dataset_from_list.
  unfold bind at 1. unfold print_dataset at 1.
  unfold bind at 1. unfold print at 1.
  unfold bind at 1.
  unfold emit. simpl. rewrite <- !app_assoc. reflexivity.
Qed.

End main.

(** X15.  [main] as a whole, when the metadata file exists and some record
    survives: it prints its progress and the warnings, builds the Dataset
    of the surviving records, and then does what [push_dataset_to_hub] does
    with that Dataset, the repository, the token and the visibility of the
    command line; the last line of output is printed only if the push
    returns. *)
Theorem main_pipeline
    (env : gmap string str) (fs : filesystem) (args : Args) (w : world) :
  let lines :=
    file_lines fs (os_path_join (args_root_dir args)
                     [args_metadata_filename args]) in
  let survivors :=
    records fs (args_root_dir args) (args_wav_subdir args) (args_audio_ext args)
      (args_text_column_index args) lines in
  let warnings :=
    diagnostics fs (args_root_dir args) (args_wav_subdir args)
      (args_audio_ext args) (args_text_column_index args) lines in
  let ds :=
    mkDataset (schema (args_sampling_rate args)) (omap dataset_row survivors) in
  let printed :=
    [OutStr (lit "[INFO] Loading metadata...")]
    ++ warnings
    ++ [ OutStr (lit "[INFO] Found "
                 ++ str_of_int (Z.of_nat (length survivors))
                 ++ lit " valid examples");
         OutStr (lit "[INFO] Building HF audio dataset...");
         OutDataset ds;
         OutStr (lit "[INFO] Pushing dataset to hub as " ++ args_hf_repo args
                 ++ lit " ...") ] in
  isfile fs (os_path_join (args_root_dir args) [args_metadata_filename args])
    = true ->
  survivors <> [] ->
  length (ds_rows ds) = length survivors /\
  main env fs args w =
    bind (push_dataset_to_hub env ds (args_hf_repo args) (args_hf_token args)
            (args_hf_private args))
         (fun _ => print (lit "[INFO] Done. Dataset uploaded."))
         (emit w printed).
Proof.
  cbv zeta. intros Hmeta Hsome. split; [|by apply main_until_push].
  simpl. symmetry. eapply Forall2_length, dataset_rows_exist.
  apply Forall_forall. intros d Hd. unfold records in Hd.
  apply list_elem_of_omap in Hd as (line & _ & Hrec).
  unfold line_record in Hrec.
  destruct (judge _ _ _ _ _ line) eqn:Hj; try done. injection Hrec as ->.
  apply judge_accepted_inv in Hj as (? & ? & ? & _ & _ & _ & _ & _ & ->).
  by eexists.
Qed.

(** The corpus, with a token the hub accepts in the environment: the run
    ends well, after one call to create the repository and one to push. *)
Lemma main_pipeline_witness :
  snd (main env_token corpus_fs (args0 "metadata.csv") w0) = Normal tt
  /\ length (net_calls (fst (main env_token corpus_fs (args0 "metadata.csv") w0)))
     = 2%nat.
Proof.
  destruct (main_pipeline env_token corpus_fs (args0 "metadata.csv") w0)
    as [_ H].
  - vm_compute. reflexivity.
  - vm_compute. discriminate.
  - rewrite H. split; vm_compute; reflexivity.
Defined.

(** X16.  The token is looked for last: with a metadata file that has
    surviving records, and neither a token on the command line nor
    [HF_TOKEN] in the environment, [main] loads the metadata, builds the
    Dataset and announces the push before it fails with the error of the
    missing token; the hub is not called and the closing line is not
    printed. *)
Theorem main_without_token
    (env : gmap string str) (fs : filesystem) (args : Args) (w : world) :
  let lines :=
    file_lines fs (os_path_join (args_root_dir args)
                     [args_metadata_filename args]) in
  let survivors :=
    records fs (args_root_dir args) (args_wav_subdir args) (args_audio_ext args)
      (args_text_column_index args) lines in
  let warnings :=
    diagnostics fs (args_root_dir args) (args_wav_subdir args)
      (args_audio_ext args) (args_text_column_index args) lines in
  let ds :=
    mkDataset (schema (args_sampling_rate args)) (omap dataset_row survivors) in
  isfile fs (os_path_join (args_root_dir args) [args_metadata_filename args])
    = true ->
  survivors <> [] ->
  args_hf_token args = None ->
  env !! "HF_TOKEN" = None ->
  main env fs args w =
    (emit w
       ([OutStr (lit "[INFO] Loading metadata...")]
        ++ warnings
        ++ [ OutStr (lit "[INFO] Found "
                     ++ str_of_int (Z.of_nat (length survivors))
                     ++ lit " valid examples");
             OutStr (lit "[INFO] Building HF audio dataset...");
             OutDataset ds;
             OutStr (lit "[INFO] Pushing dataset to hub as "
                     ++ args_hf_repo args ++ lit " ...") ]),
     Raise (RuntimeError
       (lit "No HF token found. Pass --hf-token or set HF_TOKEN env variable."))).
Proof.
  cbv zeta. intros Hmeta Hsome Htok Henv.
  rewrite main_until_push by done.
  unfold bind, push_dataset_to_hub, os_getenv. by rewrite Htok, Henv.
Qed.

(** The corpus, with no token anywhere. *)
Lemma main_without_token_witness :
  snd (main ∅ corpus_fs (args0 "metadata.csv") w0) =
    Raise (RuntimeError
      (lit "No HF token found. Pass --hf-token or set HF_TOKEN env variable."))
  /\ net_calls (fst (main ∅ corpus_fs (args0 "metadata.csv") w0)) = [].
Proof.
  rewrite (main_without_token ∅ corpus_fs (args0 "metadata.csv") w0).
  - split; reflexivity.
  - vm_compute. reflexivity.
  - vm_compute. discriminate.
  - reflexivity.
  - reflexivity.
Defined.

End PipelineMore.

(** ** A further property of the text-cleaning script *)

Module CleaningMore.
Import Py Cleaning Examples CleaningProps.

(** X17.  The script raises [NameError] exactly when standard input is
    empty: the loop then assigns nothing to [input_text_stdin], the
    normaliser is not called and nothing is written.  On any other input
    the variable is bound and no [NameError] arises. *)
Theorem script_name_error_iff_empty
    (Normalizer_normalize : normalizer_call -> option str)
    (stdin : list str) (w : world) :
  script Normalizer_normalize [] w = (w, Raise (NameError "input_text_stdin"))
  /\ ((exists name, snd (script Normalizer_normalize stdin w)
                      = Raise (NameError name))
      <-> stdin = []).
Proof.
  split; [reflexivity|]. split.
  - intros [name H]. destruct (last stdin) as [l|] eqn:Hl.
    + exfalso. revert H. unfold script. unfold bind at 1.
      rewrite for_each_keeps_last, Hl.
      unfold bind, read_var, ret, normalize_text, sys_stdout_write.
      by destruct (Normalizer_normalize _).
    + by apply last_None in Hl.
  - intros ->. by eexists.
Qed.

End CleaningMore.
